(** * The NPM build actions of aws_lambda_builders.workflows.nodejs_npm

    A shallow embedding of [actions.py]: the three actions
    [NodejsNpmPackAction], [NodejsNpmInstallAction] and
    [NodejsNpmScriptAction], each with its [execute] method, over an
    explicit model of Python exceptions, of the duck-typed collaborators
    ([osutils], [subprocess_npm]) and of the values [json.loads] returns. *)

From Stdlib Require Import ZArith Ascii String Floats.SpecFloat.
From stdpp Require Import base decidable option list gmap strings.

Set Warnings "-register-all".

Open Scope string_scope.
Open Scope list_scope.

(** ** Exceptions *)

(** Modelled from the spec: the classes [ActionFailedError]
    (aws_lambda_builders.actions) and [NpmExecutionError] (.npm) are imported
    by actions.py and declared outside it; the spec calls them the uniform
    pipeline failure and the typed execution error, each carrying a message.
    The other classes are the Python built-ins (and [tarfile]'s) that the
    code paths of actions.py can meet. *)
Inductive exn_class : Type :=
  | Exception
  | NpmExecutionError
  | ActionFailedError
  | ValueError
  | JSONDecodeError
  | AttributeError
  | TypeError
  | KeyError
  | OSError
  | TarError
  | ReadError.

#[global] Instance exn_class_eq_dec : EqDecision exn_class.
Proof. solve_decision. Defined.

(** The classes an instance of [c] belongs to, most specific first:
    [json.JSONDecodeError] derives from [ValueError], [tarfile.ReadError]
    from [tarfile.TarError], everything else directly from [Exception]. *)
Definition mro (c : exn_class) : list exn_class :=
  match c with
  | Exception => [Exception]
  | JSONDecodeError => [JSONDecodeError; ValueError; Exception]
  | ReadError => [ReadError; TarError; Exception]
  | _ => [c; Exception]
  end.

Definition issubclass (c d : exn_class) : bool := bool_decide (d ∈ mro c).

(** A raised exception: its class and [str(ex)]. *)
Record exn : Type := Exn { cls : exn_class; str : string }.

#[global] Instance exn_eq_dec : EqDecision exn.
Proof. solve_decision. Defined.

Definition isinstance (e : exn) (c : exn_class) : bool := issubclass (cls e) c.

(** What a call gives back: it raises ([inl]) or returns ([inr]). *)
Definition outcome (A : Type) : Type := exn + A.

(** ** Values returned by [json.loads] *)

Inductive json : Type :=
  | JNone
  | JBool (b : bool)
  | JInt (n : Z)
  | JFloat (f : spec_float)
  | JStr (s : string)
  | JList (l : list json)
  | JDict (d : gmap string json).

(** [type(v).__name__] *)
Definition type_name (v : json) : string :=
  match v with
  | JNone => "NoneType"
  | JBool _ => "bool"
  | JInt _ => "int"
  | JFloat _ => "float"
  | JStr _ => "str"
  | JList _ => "list"
  | JDict _ => "dict"
  end.

Definition no_attribute (v : json) (attr : string) : exn :=
  Exn AttributeError
      ("'" +:+ type_name v +:+ "' object has no attribute '" +:+ attr +:+ "'").

(** [v.keys()]: only a dict has the method. *)
Definition keys (v : json) : outcome (gset string) :=
  match v with
  | JDict d => inr (dom d)
  | _ => inl (no_attribute v "keys")
  end.

(** [v[k]] for a string [k]. *)
Definition getitem (v : json) (k : string) : outcome json :=
  match v with
  | JDict d =>
      match d !! k with
      | Some x => inr x
      | None => inl (Exn KeyError ("'" +:+ k +:+ "'"))
      end
  | JList _ => inl (Exn TypeError "list indices must be integers or slices, not str")
  | JStr _ => inl (Exn TypeError "string indices must be integers")
  | _ => inl (Exn TypeError ("'" +:+ type_name v +:+ "' object is not subscriptable"))
  end.

(** ** Calls to the collaborators *)

(** The calls [execute] makes on [self.osutils] and [self.subprocess_npm],
    with their arguments.  [LOG.debug] is not recorded: it formats strings
    and does not raise. *)
Inductive call : Type :=
  | Dirname (path : string)
  | Abspath (path : string)
  | Joinpath (a b : string)
  | GetTextContents (path : string)
  | ExtractTarfile (tarfile_path unpacked_path : string)
  | NpmRun (args : list string) (cwd : string).

#[global] Instance call_eq_dec : EqDecision call.
Proof. solve_decision. Defined.

Definition is_npm_run (c : call) : bool :=
  match c with NpmRun _ _ => true | _ => false end.

(** The executor invocations of a trace, in order. *)
Definition npm_runs (t : list call) : list call := filter (λ c, is_npm_run c = true) t.

Section Effects.
(** The state the collaborators act on: the file system and the processes,
    left abstract. *)
Context {W : Type}.

(** A computation: from a world to the world it leaves, the calls it made,
    and whether it raised. *)
Definition M (A : Type) : Type := W → W * list call * outcome A.

Definition ret {A} (a : A) : M A := λ w, (w, [], inr a).

Definition raise {A} (e : exn) : M A := λ w, (w, [], inl e).

Definition bind {A B} (m : M A) (k : A → M B) : M B := λ w,
  match m w with
  | (w1, t1, inl e) => (w1, t1, inl e)
  | (w1, t1, inr a) => let '(w2, t2, r) := k a w1 in (w2, t1 ++ t2, r)
  end.

(** A pure expression that may raise. *)
Definition lift {A} (r : outcome A) : M A := λ w, (w, [], r).

(** A collaborator method [f], recorded in the trace as the call [c]. *)
Definition perform {A} (c : call) (f : W → W * outcome A) : M A := λ w,
  let '(w1, r) := f w in (w1, [c], r).

(** The first [except C as ex] clause with [isinstance(ex, C)]. *)
Fixpoint find_handler {A} (e : exn) (hs : list (exn_class * (exn → M A)))
  : option (exn → M A) :=
  match hs with
  | [] => None
  | (c, h) :: hs' => if isinstance e c then Some h else find_handler e hs'
  end.

(** [try: body  except C1 as ex: h1  except C2 as ex: h2 ...] *)
Definition try_except {A} (body : M A) (hs : list (exn_class * (exn → M A))) : M A := λ w,
  match body w with
  | (w1, t1, inl e) =>
      match find_handler e hs with
      | Some h => let '(w2, t2, r) := h e w1 in (w2, t1 ++ t2, r)
      | None => (w1, t1, inl e)
      end
  | (w1, t1, inr a) => (w1, t1, inr a)
  end.

(** [aws_lambda_builders.workflows.nodejs_npm.utils.OSUtils], by the
    methods actions.py calls; each may change the world and may raise. *)
Record OSUtils : Type := {
  dirname : string → W → W * outcome string;
  abspath : string → W → W * outcome string;
  joinpath : string → string → W → W * outcome string;
  get_text_contents : string → W → W * outcome string;
  extract_tarfile : string → string → W → W * outcome ()
}.

(** [aws_lambda_builders.workflows.nodejs_npm.npm.SubprocessNpm]:
    [run(args, cwd=...)] returns the captured output. *)
Record SubprocessNpm : Type := {
  run : list string → string → W → W * outcome string
}.

(** The method calls as they appear in actions.py. *)
Definition call_dirname (os : OSUtils) (path : string) : M string :=
  perform (Dirname path) (dirname os path).

Definition call_abspath (os : OSUtils) (path : string) : M string :=
  perform (Abspath path) (abspath os path).

Definition call_joinpath (os : OSUtils) (a b : string) : M string :=
  perform (Joinpath a b) (joinpath os a b).

Definition call_get_text_contents (os : OSUtils) (path : string) : M string :=
  perform (GetTextContents path) (get_text_contents os path).

Definition call_extract_tarfile (os : OSUtils) (tarfile_path unpacked_path : string) : M () :=
  perform (ExtractTarfile tarfile_path unpacked_path)
    (extract_tarfile os tarfile_path unpacked_path).

Definition call_run (npm : SubprocessNpm) (args : list string) (cwd : string) : M string :=
  perform (NpmRun args cwd) (run npm args cwd).
End Effects.

Arguments M : clear implicits.
Arguments OSUtils : clear implicits.
Arguments SubprocessNpm : clear implicits.

Notation "'let!' x ':=' m 'in' k" := (bind m (λ x, k))
  (at level 10, x name, m at level 100, k at level 200, only parsing).

(** The parts of a finished execution. *)
Definition final_world {W A} (r : W * list call * outcome A) : W := r.1.1.
Definition trace {W A} (r : W * list call * outcome A) : list call := r.1.2.
Definition result {W A} (r : W * list call * outcome A) : outcome A := r.2.

(** [raise ActionFailedError(msg)] *)
Definition action_failed {W A} (msg : string) : M W A := raise (Exn ActionFailedError msg).

(** Python's [s in t] on strings. *)
Definition contains (s t : string) : Prop := ∃ pre post, t = pre +:+ s +:+ post.

(** ** NodejsNpmPackAction *)

Module NodejsNpmPackAction.
Section Action.
Context {W : Type}.

Record t : Type := {
  artifacts_dir : string;
  scratch_dir : string;
  manifest_path : string;
  osutils : OSUtils W;
  subprocess_npm : SubprocessNpm W
}.

Definition body (self : t) : M W () :=
  let! manifest_dir := call_dirname (osutils self) (manifest_path self) in
  let! abs_dir := call_abspath (osutils self) manifest_dir in
  let package_path := "file:" +:+ abs_dir in
  let! tarfile_name :=
    call_run (subprocess_npm self) ["pack"; "-q"; package_path] (scratch_dir self) in
  let! tarfile_path := call_joinpath (osutils self) (scratch_dir self) tarfile_name in
  call_extract_tarfile (osutils self) tarfile_path (artifacts_dir self).

Definition execute (self : t) : M W () :=
  try_except (body self)
    [(NpmExecutionError, λ ex, action_failed (str ex))].
End Action.
Arguments t : clear implicits.
End NodejsNpmPackAction.

(** ** NodejsNpmInstallAction *)

Module NodejsNpmInstallAction.
Section Action.
Context {W : Type}.

Record t : Type := {
  artifacts_dir : string;
  subprocess_npm : SubprocessNpm W
}.

Definition body (self : t) : M W () :=
  let! _ :=
    call_run (subprocess_npm self)
      ["install"; "-q"; "--no-audit"; "--no-save"; "--production"]
      (artifacts_dir self) in
  ret ().

Definition execute (self : t) : M W () :=
  try_except (body self)
    [(NpmExecutionError, λ ex, action_failed (str ex))].
End Action.
Arguments t : clear implicits.
End NodejsNpmInstallAction.

(** ** NodejsNpmScriptAction *)

Module NodejsNpmScriptAction.
Section Action.
Context {W : Type}.

(** [json.loads] of the Python standard library: the parsed value, or the
    exception it raises ([ValueError], in Python 3 its subclass
    [JSONDecodeError], on text that is not JSON). *)
Variable json_loads : string → outcome json.

Record t : Type := {
  working_dir : string;
  manifest_path : string;
  script_name : string;
  subprocess_npm : SubprocessNpm W;
  osutils : OSUtils W
}.

(** ["scripts" in parsed_json.keys() and
     self.script_name in parsed_json["scripts"].keys()]: [and] evaluates its
    right operand only when the left one is true. *)
Definition script_declared (self : t) (parsed_json : json) : M W bool :=
  let! top_keys := lift (keys parsed_json) in
  if bool_decide ("scripts" ∈ top_keys) then
    let! scripts := lift (getitem parsed_json "scripts") in
    let! script_keys := lift (keys scripts) in
    ret (bool_decide (script_name self ∈ script_keys))
  else ret false.

Definition body (self : t) : M W () :=
  let! manifest_contents := call_get_text_contents (osutils self) (manifest_path self) in
  let! parsed_json := lift (json_loads manifest_contents) in
  let! declared := script_declared self parsed_json in
  if declared : bool then
    let! _ := call_run (subprocess_npm self) ["run"; script_name self] (working_dir self) in
    ret ()
  else ret ().

Definition execute (self : t) : M W () :=
  try_except (body self)
    [(NpmExecutionError, λ ex, action_failed (str ex));
     (ValueError, λ ex,
        action_failed (manifest_path self +:+ " is not valid json: " +:+ str ex))].
End Action.
Arguments t : clear implicits.
End NodejsNpmScriptAction.

(** ** What the [except] clauses make of a raised exception *)

(** The single clause of the pack and install actions. *)
Definition npm_clause (e : exn) : outcome () :=
  if isinstance e NpmExecutionError then inl (Exn ActionFailedError (str e)) else inl e.

(** The two clauses of the script action, in their order. *)
Definition script_clauses (manifest_path : string) (e : exn) : outcome () :=
  if isinstance e NpmExecutionError then inl (Exn ActionFailedError (str e))
  else if isinstance e ValueError
       then inl (Exn ActionFailedError (manifest_path +:+ " is not valid json: " +:+ str e))
       else inl e.

Definition is_dict (v : json) : bool :=
  match v with JDict _ => true | _ => false end.

(** ** Test doubles

    Collaborators over a small file system, in the manner of the mocks of
    the repository's unit tests: path operations that tag their argument,
    an executor that writes the archive it names, an extraction that reads
    it. *)

Module Double.
(** Files by path, with their text. *)
Definition world : Type := gmap string string.

Definition no_such_file (path : string) : exn :=
  Exn OSError ("[Errno 2] No such file or directory: '" +:+ path +:+ "'").

Definition osutils : OSUtils world := {|
  dirname path w := (w, inr ("/dir:" +:+ path));
  abspath path w := (w, inr ("/abs:" +:+ path));
  joinpath a b w := (w, inr (a +:+ "/" +:+ b));
  get_text_contents path w :=
    (w, match w !! path with
        | Some text => inr text
        | None => inl (no_such_file path)
        end);
  extract_tarfile tarfile_path unpacked_path w :=
    match w !! tarfile_path with
    | None => (w, inl (no_such_file tarfile_path))
    | Some EmptyString => (w, inl (Exn ReadError "empty file"))
    | Some member => (<[unpacked_path +:+ "/package" := member]> w, inr ())
    end
|}.

(** An executor whose [pack] writes an archive holding the source
    reference and prints its name. *)
Definition npm : SubprocessNpm world := {|
  run args cwd w :=
    match args with
    | ["pack"; "-q"; package_path] =>
        (<[cwd +:+ "/package.tar" := package_path]> w, inr "package.tar")
    | "install" :: _ => (w, inr EmptyString)
    | ["run"; _] => (w, inr EmptyString)
    | _ => (w, inl (Exn NpmExecutionError "NPM Failed: unknown command"))
    end
|}.

(** An executor whose every invocation exits non-zero. *)
Definition npm_failing : SubprocessNpm world := {|
  run args cwd w := (w, inl (Exn NpmExecutionError "NPM Failed: exit code 1"))
|}.

(** An executor whose [pack] leaves an empty archive behind. *)
Definition npm_empty_archive : SubprocessNpm world := {|
  run args cwd w := (<[cwd +:+ "/package.tar" := EmptyString]> w, inr "package.tar")
|}.

Definition pack_action (npm : SubprocessNpm world) : NodejsNpmPackAction.t world := {|
  NodejsNpmPackAction.artifacts_dir := "artifacts";
  NodejsNpmPackAction.scratch_dir := "scratch_dir";
  NodejsNpmPackAction.manifest_path := "manifest";
  NodejsNpmPackAction.osutils := osutils;
  NodejsNpmPackAction.subprocess_npm := npm
|}.

Definition install_action (npm : SubprocessNpm world) : NodejsNpmInstallAction.t world := {|
  NodejsNpmInstallAction.artifacts_dir := "artifacts";
  NodejsNpmInstallAction.subprocess_npm := npm
|}.

Definition script_action (name : string) : NodejsNpmScriptAction.t world := {|
  NodejsNpmScriptAction.working_dir := "artifacts";
  NodejsNpmScriptAction.manifest_path := "artifacts/package.json";
  NodejsNpmScriptAction.script_name := name;
  NodejsNpmScriptAction.subprocess_npm := npm;
  NodejsNpmScriptAction.osutils := osutils
|}.

(** Manifest texts and what [json.loads] gives on them. *)
Definition q (s : string) : string :=
  String "034"%char (s +:+ String "034"%char EmptyString).

Definition manifest_build : string := "{" +:+ q "scripts" +:+ ": {" +:+ q "build" +:+ ": " +:+ q "tsc" +:+ "}}".
Definition manifest_test : string := "{" +:+ q "scripts" +:+ ": {" +:+ q "test" +:+ ": " +:+ q "mocha" +:+ "}}".
Definition manifest_plain : string := "{" +:+ q "name" +:+ ": " +:+ q "app" +:+ "}".
Definition manifest_empty_name : string := "{" +:+ q "scripts" +:+ ": {" +:+ q EmptyString +:+ ": " +:+ q "tsc" +:+ "}}".
Definition manifest_list : string := "[1, 2]".
Definition manifest_null_scripts : string := "{" +:+ q "scripts" +:+ ": null}".
Definition manifest_truncated : string := "{" +:+ q "scripts" +:+ ": ".

Definition fixtures : list (string * outcome json) :=
  [ (manifest_build, inr (JDict {[ "scripts" := JDict {[ "build" := JStr "tsc" ]} ]}));
    (manifest_test, inr (JDict {[ "scripts" := JDict {[ "test" := JStr "mocha" ]} ]}));
    (manifest_plain, inr (JDict {[ "name" := JStr "app" ]}));
    (manifest_empty_name, inr (JDict {[ "scripts" := JDict {[ EmptyString := JStr "tsc" ]} ]}));
    (manifest_list, inr (JList [JInt 1; JInt 2]));
    (manifest_null_scripts, inr (JDict {[ "scripts" := JNone ]}));
    (manifest_truncated,
     inl (Exn JSONDecodeError "Expecting value: line 1 column 13 (char 12)")) ].

(** A parser that knows the fixtures and rejects any other text. *)
Definition json_loads (text : string) : outcome json :=
  match list_find (λ entry, entry.1 = text) fixtures with
  | Some (_, (_, r)) => r
  | None => inl (Exn JSONDecodeError "Expecting value: line 1 column 1 (char 0)")
  end.

(** A file system with the manifest [text] in place. *)
Definition with_manifest (text : string) : world := {[ "artifacts/package.json" := text ]}.
End Double.

(** ** Faulty collaborators

    Doubles for the failures a real run can meet: a working directory that
    is gone, an executor that fails on its own arguments. *)

Module Faulty.
(** [os.path.abspath] consults the current directory and fails when it no
    longer exists. *)
Definition osutils_no_cwd : OSUtils Double.world := {|
  dirname := dirname Double.osutils;
  abspath path w := (w, inl (Exn OSError "[Errno 2] No such file or directory"));
  joinpath := joinpath Double.osutils;
  get_text_contents := get_text_contents Double.osutils;
  extract_tarfile := extract_tarfile Double.osutils
|}.

(** An executor that rejects its arguments with a [ValueError]. *)
Definition npm_value_error : SubprocessNpm Double.world := {|
  run args cwd w := (w, inl (Exn ValueError "embedded null byte"))
|}.

(** An executor that cannot start the process. *)
Definition npm_os_error : SubprocessNpm Double.world := {|
  run args cwd w := (w, inl (Exn OSError "[Errno 13] Permission denied: 'npm'"))
|}.

Definition pack_action (os : OSUtils Double.world) : NodejsNpmPackAction.t Double.world := {|
  NodejsNpmPackAction.artifacts_dir := "artifacts";
  NodejsNpmPackAction.scratch_dir := "scratch_dir";
  NodejsNpmPackAction.manifest_path := "manifest";
  NodejsNpmPackAction.osutils := os;
  NodejsNpmPackAction.subprocess_npm := Double.npm
|}.

Definition script_action (npm : SubprocessNpm Double.world) (name : string)
  : NodejsNpmScriptAction.t Double.world := {|
  NodejsNpmScriptAction.working_dir := "artifacts";
  NodejsNpmScriptAction.manifest_path := "artifacts/package.json";
  NodejsNpmScriptAction.script_name := name;
  NodejsNpmScriptAction.subprocess_npm := npm;
  NodejsNpmScriptAction.osutils := Double.osutils
|}.
End Faulty.

(** ** Executions, case by case

    The ways an [execute] can go, by the first call that raises. Each
    action's [execute] is shown below to be in its relation. *)

Section Runs.
Context {W : Type}.

Inductive pack_run (self : NodejsNpmPackAction.t W) (w : W)
  : W * list call * outcome () → Prop :=
  | pack_dirname_raised w1 e :
      dirname (NodejsNpmPackAction.osutils self)
        (NodejsNpmPackAction.manifest_path self) w = (w1, inl e) →
      pack_run self w
        (w1, [Dirname (NodejsNpmPackAction.manifest_path self)], npm_clause e)
  | pack_abspath_raised w1 w2 manifest_dir e :
      dirname (NodejsNpmPackAction.osutils self)
        (NodejsNpmPackAction.manifest_path self) w = (w1, inr manifest_dir) →
      abspath (NodejsNpmPackAction.osutils self) manifest_dir w1 = (w2, inl e) →
      pack_run self w
        (w2, [Dirname (NodejsNpmPackAction.manifest_path self); Abspath manifest_dir],
         npm_clause e)
  | pack_npm_raised w1 w2 w3 manifest_dir abs_dir e :
      dirname (NodejsNpmPackAction.osutils self)
        (NodejsNpmPackAction.manifest_path self) w = (w1, inr manifest_dir) →
      abspath (NodejsNpmPackAction.osutils self) manifest_dir w1 = (w2, inr abs_dir) →
      run (NodejsNpmPackAction.subprocess_npm self) ["pack"; "-q"; "file:" +:+ abs_dir]
        (NodejsNpmPackAction.scratch_dir self) w2 = (w3, inl e) →
      pack_run self w
        (w3, [Dirname (NodejsNpmPackAction.manifest_path self); Abspath manifest_dir;
              NpmRun ["pack"; "-q"; "file:" +:+ abs_dir]
                (NodejsNpmPackAction.scratch_dir self)],
         npm_clause e)
  | pack_joinpath_raised w1 w2 w3 w4 manifest_dir abs_dir tarfile_name e :
      dirname (NodejsNpmPackAction.osutils self)
        (NodejsNpmPackAction.manifest_path self) w = (w1, inr manifest_dir) →
      abspath (NodejsNpmPackAction.osutils self) manifest_dir w1 = (w2, inr abs_dir) →
      run (NodejsNpmPackAction.subprocess_npm self) ["pack"; "-q"; "file:" +:+ abs_dir]
        (NodejsNpmPackAction.scratch_dir self) w2 = (w3, inr tarfile_name) →
      joinpath (NodejsNpmPackAction.osutils self)
        (NodejsNpmPackAction.scratch_dir self) tarfile_name w3 = (w4, inl e) →
      pack_run self w
        (w4, [Dirname (NodejsNpmPackAction.manifest_path self); Abspath manifest_dir;
              NpmRun ["pack"; "-q"; "file:" +:+ abs_dir]
                (NodejsNpmPackAction.scratch_dir self);
              Joinpath (NodejsNpmPackAction.scratch_dir self) tarfile_name],
         npm_clause e)
  | pack_extracted w1 w2 w3 w4 w5 manifest_dir abs_dir tarfile_name tarfile_path r :
      dirname (NodejsNpmPackAction.osutils self)
        (NodejsNpmPackAction.manifest_path self) w = (w1, inr manifest_dir) →
      abspath (NodejsNpmPackAction.osutils self) manifest_dir w1 = (w2, inr abs_dir) →
      run (NodejsNpmPackAction.subprocess_npm self) ["pack"; "-q"; "file:" +:+ abs_dir]
        (NodejsNpmPackAction.scratch_dir self) w2 = (w3, inr tarfile_name) →
      joinpath (NodejsNpmPackAction.osutils self)
        (NodejsNpmPackAction.scratch_dir self) tarfile_name w3 = (w4, inr tarfile_path) →
      extract_tarfile (NodejsNpmPackAction.osutils self) tarfile_path
        (NodejsNpmPackAction.artifacts_dir self) w4 = (w5, r) →
      pack_run self w
        (w5, [Dirname (NodejsNpmPackAction.manifest_path self); Abspath manifest_dir;
              NpmRun ["pack"; "-q"; "file:" +:+ abs_dir]
                (NodejsNpmPackAction.scratch_dir self);
              Joinpath (NodejsNpmPackAction.scratch_dir self) tarfile_name;
              ExtractTarfile tarfile_path (NodejsNpmPackAction.artifacts_dir self)],
         match r with inl e => npm_clause e | inr _ => inr () end).

Inductive script_run (json_loads : string → outcome json)
    (self : NodejsNpmScriptAction.t W) (w : W)
  : W * list call * outcome () → Prop :=
  | script_read_raised w1 e :
      get_text_contents (NodejsNpmScriptAction.osutils self)
        (NodejsNpmScriptAction.manifest_path self) w = (w1, inl e) →
      script_run json_loads self w
        (w1, [GetTextContents (NodejsNpmScriptAction.manifest_path self)],
         script_clauses (NodejsNpmScriptAction.manifest_path self) e)
  | script_parse_raised w1 text e :
      get_text_contents (NodejsNpmScriptAction.osutils self)
        (NodejsNpmScriptAction.manifest_path self) w = (w1, inr text) →
      json_loads text = inl e →
      script_run json_loads self w
        (w1, [GetTextContents (NodejsNpmScriptAction.manifest_path self)],
         script_clauses (NodejsNpmScriptAction.manifest_path self) e)
  | script_keys_raised w1 text v culprit :
      get_text_contents (NodejsNpmScriptAction.osutils self)
        (NodejsNpmScriptAction.manifest_path self) w = (w1, inr text) →
      json_loads text = inr v →
      (culprit = v ∧ is_dict v = false)
      ∨ (∃ d, v = JDict d ∧ d !! "scripts" = Some culprit ∧ is_dict culprit = false) →
      script_run json_loads self w
        (w1, [GetTextContents (NodejsNpmScriptAction.manifest_path self)],
         inl (no_attribute culprit "keys"))
  | script_skipped w1 text d :
      get_text_contents (NodejsNpmScriptAction.osutils self)
        (NodejsNpmScriptAction.manifest_path self) w = (w1, inr text) →
      json_loads text = inr (JDict d) →
      (d !! "scripts" = None
       ∨ ∃ scripts, d !! "scripts" = Some (JDict scripts)
                    ∧ scripts !! NodejsNpmScriptAction.script_name self = None) →
      script_run json_loads self w
        (w1, [GetTextContents (NodejsNpmScriptAction.manifest_path self)], inr ())
  | script_ran w1 w2 text d scripts r :
      get_text_contents (NodejsNpmScriptAction.osutils self)
        (NodejsNpmScriptAction.manifest_path self) w = (w1, inr text) →
      json_loads text = inr (JDict d) →
      d !! "scripts" = Some (JDict scripts) →
      is_Some (scripts !! NodejsNpmScriptAction.script_name self) →
      run (NodejsNpmScriptAction.subprocess_npm self)
        ["run"; NodejsNpmScriptAction.script_name self]
        (NodejsNpmScriptAction.working_dir self) w1 = (w2, r) →
      script_run json_loads self w
        (w2, [GetTextContents (NodejsNpmScriptAction.manifest_path self);
              NpmRun ["run"; NodejsNpmScriptAction.script_name self]
                (NodejsNpmScriptAction.working_dir self)],
         match r with
         | inl e => script_clauses (NodejsNpmScriptAction.manifest_path self) e
         | inr _ => inr ()
         end).
End Runs.

(** * Properties *)

(** ** Exception classes *)

Lemma value_error_not_npm (e : exn) :
  isinstance e ValueError = true → isinstance e NpmExecutionError = false.
Proof. destruct e as [c msg]; destruct c; simpl; intros H; (reflexivity || discriminate H). Qed.

(** ** The [try] statement *)

Section TryExcept.
Context {W A : Type}.
Implicit Types (body : M W A) (hs : list (exn_class * (exn → M W A))) (w : W).

Lemma try_except_returns body hs w w1 t a :
  body w = (w1, t, inr a) → try_except body hs w = (w1, t, inr a).
Proof. intros Hbody. unfold try_except. rewrite Hbody. reflexivity. Qed.

End TryExcept.

(** The clauses' outcomes. *)
Lemma npm_clause_never_npm (e e' : exn) :
  npm_clause e = inl e' → isinstance e' NpmExecutionError = false.
Proof.
  unfold npm_clause. destruct (isinstance e NpmExecutionError) eqn:He; intros [= <-].
  - reflexivity.
  - exact He.
Qed.

(** ** NodejsNpmPackAction *)

Section PackAction.
Import NodejsNpmPackAction.
Context {W : Type}.
Implicit Types (self : t W) (w : W).

Lemma pack_execute_raised self w w1 tr e :
  body self w = (w1, tr, inl e) → execute self w = (w1, tr, npm_clause e).
Proof.
  intros Hbody. unfold execute, try_except, npm_clause.
  rewrite Hbody. cbn [find_handler].
  destruct (isinstance e NpmExecutionError); [| reflexivity].
  unfold action_failed, raise. rewrite app_nil_r. reflexivity.
Qed.

Lemma pack_body_dirname_raised self w w1 e :
  dirname (osutils self) (manifest_path self) w = (w1, inl e) →
  body self w = (w1, [Dirname (manifest_path self)], inl e).
Proof.
  intros H1. unfold body, bind, call_dirname, perform. rewrite H1. reflexivity.
Qed.

Lemma pack_body_abspath_raised self w w1 w2 manifest_dir e :
  dirname (osutils self) (manifest_path self) w = (w1, inr manifest_dir) →
  abspath (osutils self) manifest_dir w1 = (w2, inl e) →
  body self w = (w2, [Dirname (manifest_path self); Abspath manifest_dir], inl e).
Proof.
  intros H1 H2. unfold body, bind, call_dirname, call_abspath, perform.
  rewrite H1, H2. reflexivity.
Qed.

Lemma pack_body_run_raised self w w1 w2 w3 manifest_dir abs_dir e :
  dirname (osutils self) (manifest_path self) w = (w1, inr manifest_dir) →
  abspath (osutils self) manifest_dir w1 = (w2, inr abs_dir) →
  run (subprocess_npm self) ["pack"; "-q"; "file:" +:+ abs_dir] (scratch_dir self) w2
    = (w3, inl e) →
  body self w
  = (w3, [Dirname (manifest_path self); Abspath manifest_dir;
          NpmRun ["pack"; "-q"; "file:" +:+ abs_dir] (scratch_dir self)], inl e).
Proof.
  intros H1 H2 H3. unfold body, bind, call_dirname, call_abspath, call_run, perform.
  rewrite H1, H2, H3. reflexivity.
Qed.

Lemma pack_body_joinpath_raised self w w1 w2 w3 w4 manifest_dir abs_dir tarfile_name e :
  dirname (osutils self) (manifest_path self) w = (w1, inr manifest_dir) →
  abspath (osutils self) manifest_dir w1 = (w2, inr abs_dir) →
  run (subprocess_npm self) ["pack"; "-q"; "file:" +:+ abs_dir] (scratch_dir self) w2
    = (w3, inr tarfile_name) →
  joinpath (osutils self) (scratch_dir self) tarfile_name w3 = (w4, inl e) →
  body self w
  = (w4, [Dirname (manifest_path self); Abspath manifest_dir;
          NpmRun ["pack"; "-q"; "file:" +:+ abs_dir] (scratch_dir self);
          Joinpath (scratch_dir self) tarfile_name], inl e).
Proof.
  intros H1 H2 H3 H4.
  unfold body, bind, call_dirname, call_abspath, call_run, call_joinpath, perform.
  rewrite H1, H2, H3, H4. reflexivity.
Qed.

(** The body once the first four calls have returned: the outcome is the
    extraction's. *)
Lemma pack_body_extract self w w1 w2 w3 w4 w5 manifest_dir abs_dir tarfile_name tarfile_path r :
  dirname (osutils self) (manifest_path self) w = (w1, inr manifest_dir) →
  abspath (osutils self) manifest_dir w1 = (w2, inr abs_dir) →
  run (subprocess_npm self) ["pack"; "-q"; "file:" +:+ abs_dir] (scratch_dir self) w2
    = (w3, inr tarfile_name) →
  joinpath (osutils self) (scratch_dir self) tarfile_name w3 = (w4, inr tarfile_path) →
  extract_tarfile (osutils self) tarfile_path (artifacts_dir self) w4 = (w5, r) →
  body self w
  = (w5, [Dirname (manifest_path self); Abspath manifest_dir;
          NpmRun ["pack"; "-q"; "file:" +:+ abs_dir] (scratch_dir self);
          Joinpath (scratch_dir self) tarfile_name;
          ExtractTarfile tarfile_path (artifacts_dir self)], r).
Proof.
  intros H1 H2 H3 H4 H5.
  unfold body, bind, call_dirname, call_abspath, call_run, call_joinpath,
    call_extract_tarfile, perform.
  rewrite H1, H2, H3, H4, H5. reflexivity.
Qed.

(** When every call returns, so does [execute]. *)
Lemma pack_execute_returns self w w1 w2 w3 w4 w5 manifest_dir abs_dir tarfile_name tarfile_path :
  dirname (osutils self) (manifest_path self) w = (w1, inr manifest_dir) →
  abspath (osutils self) manifest_dir w1 = (w2, inr abs_dir) →
  run (subprocess_npm self) ["pack"; "-q"; "file:" +:+ abs_dir] (scratch_dir self) w2
    = (w3, inr tarfile_name) →
  joinpath (osutils self) (scratch_dir self) tarfile_name w3 = (w4, inr tarfile_path) →
  extract_tarfile (osutils self) tarfile_path (artifacts_dir self) w4 = (w5, inr ()) →
  execute self w
  = (w5, [Dirname (manifest_path self); Abspath manifest_dir;
          NpmRun ["pack"; "-q"; "file:" +:+ abs_dir] (scratch_dir self);
          Joinpath (scratch_dir self) tarfile_name;
          ExtractTarfile tarfile_path (artifacts_dir self)], inr ()).
Proof.
  intros H1 H2 H3 H4 H5. apply try_except_returns.
  exact (pack_body_extract _ _ _ _ _ _ _ _ _ _ _ _ H1 H2 H3 H4 H5).
Qed.

(** An execution that raises never returns [inr]. *)
Lemma pack_execute_raised_not_ok self w w1 tr e w' tr' :
  body self w = (w1, tr, inl e) → execute self w ≠ (w', tr', inr ()).
Proof.
  intros Hbody Hok. rewrite (pack_execute_raised _ _ _ _ _ Hbody) in Hok.
  unfold npm_clause in Hok. destruct (isinstance e NpmExecutionError); discriminate Hok.
Qed.
End PackAction.

Section PackActionClaims.
Import NodejsNpmPackAction.
Context {W : Type}.
Implicit Types (self : t W) (w : W).

(** C7. A successful [execute] of the pack action has made exactly these
    calls, in this order: [dirname] of the manifest path and [abspath] of
    its result, giving the reference ["file:" + abs_dir]; [run] of
    [pack -q <reference>] in the scratch directory, whose output is the
    archive name; [joinpath] of the scratch directory and that name; and
    [extract_tarfile] of the joined path into the artifacts directory. *)
Theorem pack_success_sequence self w w' tr :
  execute self w = (w', tr, inr ()) →
  ∃ w1 w2 w3 w4 manifest_dir abs_dir tarfile_name tarfile_path,
    dirname (osutils self) (manifest_path self) w = (w1, inr manifest_dir) ∧
    abspath (osutils self) manifest_dir w1 = (w2, inr abs_dir) ∧
    run (subprocess_npm self) ["pack"; "-q"; "file:" +:+ abs_dir] (scratch_dir self) w2
      = (w3, inr tarfile_name) ∧
    joinpath (osutils self) (scratch_dir self) tarfile_name w3 = (w4, inr tarfile_path) ∧
    extract_tarfile (osutils self) tarfile_path (artifacts_dir self) w4 = (w', inr ()) ∧
    tr = [Dirname (manifest_path self); Abspath manifest_dir;
          NpmRun ["pack"; "-q"; "file:" +:+ abs_dir] (scratch_dir self);
          Joinpath (scratch_dir self) tarfile_name;
          ExtractTarfile tarfile_path (artifacts_dir self)].
Proof.
  intros Hok.
  destruct (dirname (osutils self) (manifest_path self) w)
    as [w1 [e | manifest_dir]] eqn:H1.
  { destruct (pack_execute_raised_not_ok _ _ _ _ _ _ _
                (pack_body_dirname_raised _ _ _ _ H1) Hok). }
  destruct (abspath (osutils self) manifest_dir w1) as [w2 [e | abs_dir]] eqn:H2.
  { destruct (pack_execute_raised_not_ok _ _ _ _ _ _ _
                (pack_body_abspath_raised _ _ _ _ _ _ H1 H2) Hok). }
  destruct (run (subprocess_npm self) ["pack"; "-q"; "file:" +:+ abs_dir]
              (scratch_dir self) w2) as [w3 [e | tarfile_name]] eqn:H3.
  { destruct (pack_execute_raised_not_ok _ _ _ _ _ _ _
                (pack_body_run_raised _ _ _ _ _ _ _ _ H1 H2 H3) Hok). }
  destruct (joinpath (osutils self) (scratch_dir self) tarfile_name w3)
    as [w4 [e | tarfile_path]] eqn:H4.
  { destruct (pack_execute_raised_not_ok _ _ _ _ _ _ _
                (pack_body_joinpath_raised _ _ _ _ _ _ _ _ _ _ H1 H2 H3 H4) Hok). }
  destruct (extract_tarfile (osutils self) tarfile_path (artifacts_dir self) w4)
    as [w5 [e | []]] eqn:H5.
  { destruct (pack_execute_raised_not_ok _ _ _ _ _ _ _
                (pack_body_extract _ _ _ _ _ _ _ _ _ _ _ _ H1 H2 H3 H4 H5) Hok). }
  rewrite (pack_execute_returns _ _ _ _ _ _ _ _ _ _ _ H1 H2 H3 H4 H5) in Hok.
  injection Hok as <- <-.
  exists w1, w2, w3, w4, manifest_dir, abs_dir, tarfile_name, tarfile_path.
  rewrite H5. repeat split; assumption || reflexivity.
Qed.

(** C1, as the code has it. When the packaging invocation (step 2) or the
    extraction (step 4) raises [e], [execute] stops in the world that call
    left; it raises [ActionFailedError(str(e))] when [e] is an
    [NpmExecutionError], and [e] itself, unchanged, when it is of any other
    class; so no [NpmExecutionError] leaves the action. *)
Theorem pack_fault_translation self w w1 w2 wf manifest_dir abs_dir e :
  dirname (osutils self) (manifest_path self) w = (w1, inr manifest_dir) →
  abspath (osutils self) manifest_dir w1 = (w2, inr abs_dir) →
  (run (subprocess_npm self) ["pack"; "-q"; "file:" +:+ abs_dir] (scratch_dir self) w2
     = (wf, inl e)
   ∨ ∃ w3 w4 tarfile_name tarfile_path,
       run (subprocess_npm self) ["pack"; "-q"; "file:" +:+ abs_dir] (scratch_dir self) w2
         = (w3, inr tarfile_name) ∧
       joinpath (osutils self) (scratch_dir self) tarfile_name w3 = (w4, inr tarfile_path) ∧
       extract_tarfile (osutils self) tarfile_path (artifacts_dir self) w4 = (wf, inl e)) →
  final_world (execute self w) = wf ∧
  result (execute self w)
    = (if isinstance e NpmExecutionError
       then inl (Exn ActionFailedError (str e)) else inl e) ∧
  ∀ e', result (execute self w) = inl e' → isinstance e' NpmExecutionError = false.
Proof.
  intros H1 H2 Hfault.
  assert (∃ tr, body self w = (wf, tr, inl e)) as [tr Hbody].
  { destruct Hfault as [H3 | (w3 & w4 & tarfile_name & tarfile_path & H3 & H4 & H5)].
    - eexists. exact (pack_body_run_raised _ _ _ _ _ _ _ _ H1 H2 H3).
    - eexists. exact (pack_body_extract _ _ _ _ _ _ _ _ _ _ _ _ H1 H2 H3 H4 H5). }
  rewrite (pack_execute_raised _ _ _ _ _ Hbody).
  unfold final_world, result. cbn [fst snd].
  split; [reflexivity |]. split; [reflexivity |].
  intros e'. apply npm_clause_never_npm.
Qed.
End PackActionClaims.

(** The executor fails: the pack action raises the pipeline failure with
    the executor's message. *)
Lemma pack_fault_translation_witness :
  result (NodejsNpmPackAction.execute (Double.pack_action Double.npm_failing) ∅)
  = inl (Exn ActionFailedError "NPM Failed: exit code 1").
Proof.
  exact (proj1 (proj2
    (pack_fault_translation (Double.pack_action Double.npm_failing) ∅ ∅ ∅ ∅
       "/dir:manifest" "/abs:/dir:manifest"
       (Exn NpmExecutionError "NPM Failed: exit code 1")
       eq_refl eq_refl (or_introl eq_refl)))).
Defined.

(** The unit-test scenario of the pack action: the calls and the archive
    written and unpacked. *)
Lemma pack_success_sequence_witness :
  ∃ w1 w2 w3 w4 manifest_dir abs_dir tarfile_name tarfile_path,
    dirname Double.osutils "manifest" ∅ = (w1, inr manifest_dir) ∧
    abspath Double.osutils manifest_dir w1 = (w2, inr abs_dir) ∧
    run Double.npm ["pack"; "-q"; "file:" +:+ abs_dir] "scratch_dir" w2
      = (w3, inr tarfile_name) ∧
    joinpath Double.osutils "scratch_dir" tarfile_name w3 = (w4, inr tarfile_path) ∧
    extract_tarfile Double.osutils tarfile_path "artifacts" w4
      = (<["artifacts/package" := "file:/abs:/dir:manifest"]>
           (<["scratch_dir/package.tar" := "file:/abs:/dir:manifest"]> ∅), inr ()) ∧
    [Dirname "manifest"; Abspath "/dir:manifest";
     NpmRun ["pack"; "-q"; "file:/abs:/dir:manifest"] "scratch_dir";
     Joinpath "scratch_dir" "package.tar";
     ExtractTarfile "scratch_dir/package.tar" "artifacts"]
    = [Dirname "manifest"; Abspath manifest_dir;
       NpmRun ["pack"; "-q"; "file:" +:+ abs_dir] "scratch_dir";
       Joinpath "scratch_dir" tarfile_name;
       ExtractTarfile tarfile_path "artifacts"].
Proof.
  apply (pack_success_sequence (Double.pack_action Double.npm) ∅). vm_compute. reflexivity.
Defined.

(** C1, as stated, fails: with an executor that leaves an empty archive,
    the extraction raises [tarfile.ReadError] and [execute] lets it through
    as it is, so the claim that every step-4 failure comes out as
    [ActionFailedError] does not hold. *)
Lemma pack_extraction_error_escapes :
  NodejsNpmPackAction.execute (Double.pack_action Double.npm_empty_archive) ∅
  = (<["scratch_dir/package.tar" := EmptyString]> ∅,
     [Dirname "manifest"; Abspath "/dir:manifest";
      NpmRun ["pack"; "-q"; "file:/abs:/dir:manifest"] "scratch_dir";
      Joinpath "scratch_dir" "package.tar";
      ExtractTarfile "scratch_dir/package.tar" "artifacts"],
     inl (Exn ReadError "empty file"))
  ∧ ¬ (∀ (W : Type) (self : NodejsNpmPackAction.t W) (w w1 w2 w3 w4 w5 : W)
         (manifest_dir abs_dir tarfile_name tarfile_path : string) (e : exn),
         dirname (NodejsNpmPackAction.osutils self)
           (NodejsNpmPackAction.manifest_path self) w = (w1, inr manifest_dir) →
         abspath (NodejsNpmPackAction.osutils self) manifest_dir w1 = (w2, inr abs_dir) →
         run (NodejsNpmPackAction.subprocess_npm self)
           ["pack"; "-q"; "file:" +:+ abs_dir]
           (NodejsNpmPackAction.scratch_dir self) w2 = (w3, inr tarfile_name) →
         joinpath (NodejsNpmPackAction.osutils self)
           (NodejsNpmPackAction.scratch_dir self) tarfile_name w3
           = (w4, inr tarfile_path) →
         extract_tarfile (NodejsNpmPackAction.osutils self) tarfile_path
           (NodejsNpmPackAction.artifacts_dir self) w4 = (w5, inl e) →
         result (NodejsNpmPackAction.execute self w)
         = inl (Exn ActionFailedError (str e))).
Proof.
  split; [vm_compute; reflexivity |].
  intros Hclaim.
  specialize (Hclaim Double.world (Double.pack_action Double.npm_empty_archive)
                ∅ ∅ ∅ (<["scratch_dir/package.tar" := EmptyString]> ∅)
                (<["scratch_dir/package.tar" := EmptyString]> ∅)
                (<["scratch_dir/package.tar" := EmptyString]> ∅)
                "/dir:manifest" "/abs:/dir:manifest" "package.tar"
                "scratch_dir/package.tar" (Exn ReadError "empty file")
                eq_refl eq_refl eq_refl eq_refl eq_refl).
  vm_compute in Hclaim. discriminate Hclaim.
Qed.

(** ** NodejsNpmInstallAction *)

Section InstallAction.
Import NodejsNpmInstallAction.
Context {W : Type}.
Implicit Types (self : t W) (w : W).

(** [execute] is one [run]; what it gives back decides the outcome. *)
Lemma install_execute_run self w w1 r :
  run (subprocess_npm self)
    ["install"; "-q"; "--no-audit"; "--no-save"; "--production"] (artifacts_dir self) w
    = (w1, r) →
  execute self w
  = (w1,
     [NpmRun ["install"; "-q"; "--no-audit"; "--no-save"; "--production"]
        (artifacts_dir self)],
     match r with inl e => npm_clause e | inr _ => inr () end).
Proof.
  intros Hrun. unfold execute, try_except, body, bind, call_run, perform, npm_clause.
  rewrite Hrun. destruct r as [e | output]; [| reflexivity].
  cbn [find_handler]. destruct (isinstance e NpmExecutionError); reflexivity.
Qed.

(** C6. Every [execute] of the install action invokes the executor exactly
    once, with [install -q --no-audit --no-save --production] and the
    artifacts directory as [cwd]; the world it leaves is the one that
    invocation left. *)
Theorem install_single_invocation self w :
  trace (execute self w)
  = [NpmRun ["install"; "-q"; "--no-audit"; "--no-save"; "--production"]
       (artifacts_dir self)] ∧
  npm_runs (trace (execute self w))
  = [NpmRun ["install"; "-q"; "--no-audit"; "--no-save"; "--production"]
       (artifacts_dir self)] ∧
  final_world (execute self w)
  = (run (subprocess_npm self)
       ["install"; "-q"; "--no-audit"; "--no-save"; "--production"]
       (artifacts_dir self) w).1.
Proof.
  destruct (run (subprocess_npm self)
              ["install"; "-q"; "--no-audit"; "--no-save"; "--production"]
              (artifacts_dir self) w) as [w1 r] eqn:Hrun.
  rewrite (install_execute_run _ _ _ _ Hrun). repeat split.
Qed.
End InstallAction.

Section ExecutorFaults.
Context {W : Type}.

(** C2. When the executor raises [NpmExecutionError] with message [m], the
    pack action and the install action raise [ActionFailedError] with the
    message [m]. *)
Theorem executor_fault_message_passthrough :
  (∀ (self : NodejsNpmPackAction.t W) (w w1 w2 w3 : W)
     (manifest_dir abs_dir m : string),
     dirname (NodejsNpmPackAction.osutils self)
       (NodejsNpmPackAction.manifest_path self) w = (w1, inr manifest_dir) →
     abspath (NodejsNpmPackAction.osutils self) manifest_dir w1 = (w2, inr abs_dir) →
     run (NodejsNpmPackAction.subprocess_npm self)
       ["pack"; "-q"; "file:" +:+ abs_dir] (NodejsNpmPackAction.scratch_dir self) w2
       = (w3, inl (Exn NpmExecutionError m)) →
     result (NodejsNpmPackAction.execute self w) = inl (Exn ActionFailedError m)) ∧
  (∀ (self : NodejsNpmInstallAction.t W) (w w1 : W) (m : string),
     run (NodejsNpmInstallAction.subprocess_npm self)
       ["install"; "-q"; "--no-audit"; "--no-save"; "--production"]
       (NodejsNpmInstallAction.artifacts_dir self) w
       = (w1, inl (Exn NpmExecutionError m)) →
     result (NodejsNpmInstallAction.execute self w) = inl (Exn ActionFailedError m)).
Proof.
  split.
  - intros self w w1 w2 w3 manifest_dir abs_dir m H1 H2 H3.
    rewrite (pack_execute_raised _ _ _ _ _
               (pack_body_run_raised _ _ _ _ _ _ _ _ H1 H2 H3)).
    reflexivity.
  - intros self w w1 m Hrun.
    rewrite (install_execute_run _ _ _ _ Hrun). reflexivity.
Qed.
End ExecutorFaults.

(** Both actions over the executor that always fails. *)
Lemma executor_fault_message_passthrough_witness :
  result (NodejsNpmPackAction.execute (Double.pack_action Double.npm_failing) ∅)
  = inl (Exn ActionFailedError "NPM Failed: exit code 1") ∧
  result (NodejsNpmInstallAction.execute (Double.install_action Double.npm_failing) ∅)
  = inl (Exn ActionFailedError "NPM Failed: exit code 1").
Proof.
  split.
  - exact (proj1 executor_fault_message_passthrough
             (Double.pack_action Double.npm_failing) ∅ ∅ ∅ ∅
             "/dir:manifest" "/abs:/dir:manifest" "NPM Failed: exit code 1"
             eq_refl eq_refl eq_refl).
  - exact (proj2 executor_fault_message_passthrough
             (Double.install_action Double.npm_failing) ∅ ∅ "NPM Failed: exit code 1"
             eq_refl).
Defined.

(** ** NodejsNpmScriptAction *)

Lemma script_clauses_raises (manifest_path : string) (e : exn) :
  ∃ e', script_clauses manifest_path e = inl e'.
Proof.
  unfold script_clauses.
  destruct (isinstance e NpmExecutionError); [eauto |].
  destruct (isinstance e ValueError); eauto.
Qed.

Lemma script_clauses_value_error (manifest_path : string) (e : exn) :
  isinstance e ValueError = true →
  script_clauses manifest_path e
  = inl (Exn ActionFailedError (manifest_path +:+ " is not valid json: " +:+ str e)).
Proof.
  intros He. unfold script_clauses.
  rewrite (value_error_not_npm _ He), He. reflexivity.
Qed.

Lemma contains_prefix (s rest : string) : contains s (s +:+ rest).
Proof. exists EmptyString, rest. reflexivity. Qed.

Lemma append_nil_r (s : string) : s +:+ EmptyString = s.
Proof.
  induction s as [| c s IH]; [reflexivity |].
  change (String c (s +:+ EmptyString) = String c s). rewrite IH. reflexivity.
Qed.

Lemma append_assoc (a b c : string) : (a +:+ b) +:+ c = a +:+ b +:+ c.
Proof.
  induction a as [| x a IH]; [reflexivity |].
  change (String x ((a +:+ b) +:+ c) = String x (a +:+ b +:+ c)).
  rewrite IH. reflexivity.
Qed.

Lemma contains_suffix (front s : string) : contains s (front +:+ s).
Proof. exists front, EmptyString. rewrite append_nil_r. reflexivity. Qed.

Section ScriptAction.
Import NodejsNpmScriptAction.
Context {W : Type}.
Variable json_loads : string → outcome json.
Implicit Types (self : t W) (w : W) (d scripts : gmap string json).

(** The membership test: no call is made, the world is untouched. *)
Lemma script_declared_not_dict self v w :
  is_dict v = false →
  script_declared self v w = (w, [], inl (no_attribute v "keys")).
Proof. intros Hv. destruct v; try reflexivity. discriminate Hv. Qed.

Lemma script_declared_no_scripts self d w :
  d !! "scripts" = None → script_declared self (JDict d) w = (w, [], inr false).
Proof.
  intros Hnone. unfold script_declared, bind, lift, keys.
  rewrite bool_decide_eq_false_2 by (apply not_elem_of_dom; exact Hnone).
  reflexivity.
Qed.

Lemma script_declared_scripts_not_dict self d x w :
  d !! "scripts" = Some x → is_dict x = false →
  script_declared self (JDict d) w = (w, [], inl (no_attribute x "keys")).
Proof.
  intros Hsome Hx. unfold script_declared, bind, lift, keys at 1, getitem.
  rewrite bool_decide_eq_true_2 by (apply elem_of_dom; eauto).
  rewrite Hsome. destruct x; try reflexivity. discriminate Hx.
Qed.

Lemma script_declared_scripts self d scripts w :
  d !! "scripts" = Some (JDict scripts) →
  script_declared self (JDict d) w
  = (w, [], inr (bool_decide (is_Some (scripts !! script_name self)))).
Proof.
  intros Hsome. unfold script_declared, bind, lift, keys, getitem.
  rewrite bool_decide_eq_true_2 by (apply elem_of_dom; eauto).
  rewrite Hsome. cbn [app]. do 3 f_equal.
  apply bool_decide_ext, elem_of_dom.
Qed.

(** The body, call by call. *)
Lemma script_body_read_raised self w w1 e :
  get_text_contents (osutils self) (manifest_path self) w = (w1, inl e) →
  body json_loads self w = (w1, [GetTextContents (manifest_path self)], inl e).
Proof.
  intros Hread. unfold body, bind, call_get_text_contents, perform.
  rewrite Hread. reflexivity.
Qed.

Lemma script_body_parse_raised self w w1 text e :
  get_text_contents (osutils self) (manifest_path self) w = (w1, inr text) →
  json_loads text = inl e →
  body json_loads self w = (w1, [GetTextContents (manifest_path self)], inl e).
Proof.
  intros Hread Hparse. unfold body, bind, call_get_text_contents, perform, lift.
  rewrite Hread, Hparse. reflexivity.
Qed.

Lemma script_body_lookup_raised self w w1 text v e :
  get_text_contents (osutils self) (manifest_path self) w = (w1, inr text) →
  json_loads text = inr v →
  script_declared self v w1 = (w1, [], inl e) →
  body json_loads self w = (w1, [GetTextContents (manifest_path self)], inl e).
Proof.
  intros Hread Hparse Hdecl.
  unfold body, bind at 1 2 3, call_get_text_contents, perform, lift.
  rewrite Hread, Hparse, Hdecl. reflexivity.
Qed.

Lemma script_body_skipped self w w1 text v :
  get_text_contents (osutils self) (manifest_path self) w = (w1, inr text) →
  json_loads text = inr v →
  script_declared self v w1 = (w1, [], inr false) →
  body json_loads self w = (w1, [GetTextContents (manifest_path self)], inr ()).
Proof.
  intros Hread Hparse Hdecl.
  unfold body, bind at 1 2 3, call_get_text_contents, perform, lift.
  rewrite Hread, Hparse, Hdecl. reflexivity.
Qed.

Lemma script_body_run self w w1 w2 text v r :
  get_text_contents (osutils self) (manifest_path self) w = (w1, inr text) →
  json_loads text = inr v →
  script_declared self v w1 = (w1, [], inr true) →
  run (subprocess_npm self) ["run"; script_name self] (working_dir self) w1 = (w2, r) →
  body json_loads self w
  = (w2, [GetTextContents (manifest_path self);
          NpmRun ["run"; script_name self] (working_dir self)],
     match r with inl e => inl e | inr _ => inr () end).
Proof.
  intros Hread Hparse Hdecl Hrun.
  unfold body, bind at 1 2 3, call_get_text_contents, perform, lift.
  rewrite Hread, Hparse, Hdecl.
  unfold bind, call_run, perform, ret. rewrite Hrun.
  destruct r; reflexivity.
Qed.

(** [execute] from the body's outcome. *)
Lemma script_execute_raised self w w1 tr e :
  body json_loads self w = (w1, tr, inl e) →
  execute json_loads self w = (w1, tr, script_clauses (manifest_path self) e).
Proof.
  intros Hbody. unfold execute, try_except, script_clauses.
  rewrite Hbody. cbn [find_handler].
  destruct (isinstance e NpmExecutionError).
  { unfold action_failed, raise. rewrite app_nil_r. reflexivity. }
  destruct (isinstance e ValueError); [| reflexivity].
  unfold action_failed, raise. rewrite app_nil_r. reflexivity.
Qed.

Lemma script_execute_returns self w w1 tr :
  body json_loads self w = (w1, tr, inr ()) →
  execute json_loads self w = (w1, tr, inr ()).
Proof. apply try_except_returns. Qed.

(** The declared script is run, whatever the executor then does. *)
Lemma script_execute_run self w w1 w2 text d scripts r :
  get_text_contents (osutils self) (manifest_path self) w = (w1, inr text) →
  json_loads text = inr (JDict d) →
  d !! "scripts" = Some (JDict scripts) →
  is_Some (scripts !! script_name self) →
  run (subprocess_npm self) ["run"; script_name self] (working_dir self) w1 = (w2, r) →
  execute json_loads self w
  = (w2, [GetTextContents (manifest_path self);
          NpmRun ["run"; script_name self] (working_dir self)],
     match r with
     | inl e => script_clauses (manifest_path self) e
     | inr _ => inr ()
     end).
Proof.
  intros Hread Hparse Hscripts Hname Hrun.
  pose proof (script_declared_scripts self d scripts w1 Hscripts) as Hdecl.
  rewrite (bool_decide_eq_true_2 _ Hname) in Hdecl.
  pose proof (script_body_run _ _ _ _ _ _ _ Hread Hparse Hdecl Hrun) as Hbody.
  destruct r as [e | output].
  - exact (script_execute_raised _ _ _ _ _ Hbody).
  - exact (script_execute_returns _ _ _ _ Hbody).
Qed.

(** The script is not declared: nothing but the read happens. *)
Lemma script_execute_skip self w w1 text d :
  get_text_contents (osutils self) (manifest_path self) w = (w1, inr text) →
  json_loads text = inr (JDict d) →
  (d !! "scripts" = None
   ∨ ∃ scripts, d !! "scripts" = Some (JDict scripts) ∧ scripts !! script_name self = None) →
  execute json_loads self w = (w1, [GetTextContents (manifest_path self)], inr ()).
Proof.
  intros Hread Hparse Habsent.
  apply script_execute_returns.
  apply (script_body_skipped _ _ _ _ _ Hread Hparse).
  destruct Habsent as [Hnone | (scripts & Hscripts & Hname)].
  - apply script_declared_no_scripts. exact Hnone.
  - rewrite (script_declared_scripts _ _ _ _ Hscripts).
    rewrite bool_decide_eq_false_2; [reflexivity |].
    rewrite Hname. intros [x Hx]. discriminate Hx.
Qed.
End ScriptAction.

Section ScriptActionClaims.
Import NodejsNpmScriptAction.
Context {W : Type}.
Variable json_loads : string → outcome json.
Implicit Types (self : t W) (w : W) (d scripts : gmap string json).

(** C3. When the manifest parses to an object that has no ["scripts"] key,
    or whose ["scripts"] object lacks the requested name, [execute] returns
    normally having only read the manifest: the executor is never run. *)
Theorem script_absent_is_noop self w w1 text d :
  get_text_contents (osutils self) (manifest_path self) w = (w1, inr text) →
  json_loads text = inr (JDict d) →
  (d !! "scripts" = None
   ∨ ∃ scripts, d !! "scripts" = Some (JDict scripts) ∧ scripts !! script_name self = None) →
  result (execute json_loads self w) = inr () ∧
  npm_runs (trace (execute json_loads self w)) = [] ∧
  final_world (execute json_loads self w) = w1.
Proof.
  intros Hread Hparse Habsent.
  rewrite (script_execute_skip json_loads _ _ _ _ _ Hread Hparse Habsent).
  repeat split.
Qed.

(** C4. When [json.loads] rejects the manifest text with a [ValueError]
    whose text is [str e], [execute] raises [ActionFailedError] with the
    message [<manifest_path> is not valid json: <str e>], which contains the
    manifest path and the parser's diagnostic. *)
Theorem script_invalid_json_fails self w w1 text e :
  get_text_contents (osutils self) (manifest_path self) w = (w1, inr text) →
  json_loads text = inl e →
  isinstance e ValueError = true →
  ∃ msg,
    result (execute json_loads self w) = inl (Exn ActionFailedError msg) ∧
    msg = manifest_path self +:+ " is not valid json: " +:+ str e ∧
    contains (manifest_path self) msg ∧
    contains (str e) msg.
Proof.
  intros Hread Hparse He.
  exists (manifest_path self +:+ " is not valid json: " +:+ str e).
  rewrite (script_execute_raised json_loads _ _ _ _ _
             (script_body_parse_raised json_loads _ _ _ _ _ Hread Hparse)).
  unfold result. cbn [snd]. rewrite (script_clauses_value_error _ _ He).
  split; [reflexivity |]. split; [reflexivity |]. split.
  - apply contains_prefix.
  - rewrite <- append_assoc. apply contains_suffix.
Qed.
(** C5. When the manifest parses to an object whose ["scripts"] object has
    the requested name as a key, [execute] invokes the executor exactly
    once, with [run <script_name>] and the action's working directory as
    [cwd]; when that invocation returns, whatever its output (the empty
    string included), [execute] returns normally. *)
Theorem script_declared_runs_once self w w1 text d scripts :
  get_text_contents (osutils self) (manifest_path self) w = (w1, inr text) →
  json_loads text = inr (JDict d) →
  d !! "scripts" = Some (JDict scripts) →
  is_Some (scripts !! script_name self) →
  trace (execute json_loads self w)
  = [GetTextContents (manifest_path self);
     NpmRun ["run"; script_name self] (working_dir self)] ∧
  npm_runs (trace (execute json_loads self w))
  = [NpmRun ["run"; script_name self] (working_dir self)] ∧
  ∀ w2 output,
    run (subprocess_npm self) ["run"; script_name self] (working_dir self) w1
      = (w2, inr output) →
    execute json_loads self w
    = (w2, [GetTextContents (manifest_path self);
            NpmRun ["run"; script_name self] (working_dir self)], inr ()).
Proof.
  intros Hread Hparse Hscripts Hname.
  destruct (run (subprocess_npm self) ["run"; script_name self] (working_dir self) w1)
    as [w2 r] eqn:Hrun.
  rewrite (script_execute_run json_loads _ _ _ _ _ _ _ _
             Hread Hparse Hscripts Hname Hrun).
  split; [reflexivity |]. split; [reflexivity |].
  intros w3 output [= -> ->]. reflexivity.
Qed.

(** C8. The empty script name is looked up like any other: when it is a
    key of the ["scripts"] object the executor is invoked once with
    [run] and the empty name (and [execute] returns when the invocation does); when it is
    not, [execute] returns having invoked nothing. *)
Theorem script_empty_name_not_special self w w1 text d scripts :
  script_name self = EmptyString →
  get_text_contents (osutils self) (manifest_path self) w = (w1, inr text) →
  json_loads text = inr (JDict d) →
  d !! "scripts" = Some (JDict scripts) →
  (is_Some (scripts !! EmptyString) →
   trace (execute json_loads self w)
   = [GetTextContents (manifest_path self);
      NpmRun ["run"; EmptyString] (working_dir self)] ∧
   ∀ w2 output,
     run (subprocess_npm self) ["run"; EmptyString] (working_dir self) w1
       = (w2, inr output) →
     execute json_loads self w
     = (w2, [GetTextContents (manifest_path self);
             NpmRun ["run"; EmptyString] (working_dir self)], inr ())) ∧
  (scripts !! EmptyString = None →
   execute json_loads self w = (w1, [GetTextContents (manifest_path self)], inr ())).
Proof.
  intros Hempty Hread Hparse Hscripts.
  pose proof (script_execute_run json_loads self w w1 : ∀ w2, _) as Hrun_any.
  pose proof (script_execute_skip json_loads self w w1) as Hskip_any.
  rewrite Hempty in Hrun_any, Hskip_any.
  split.
  - intros Hkey. split.
    + destruct (run (subprocess_npm self) ["run"; EmptyString]
                  (working_dir self) w1) as [w2 r] eqn:Hrun.
      rewrite (Hrun_any _ _ _ _ _ Hread Hparse Hscripts Hkey eq_refl).
      reflexivity.
    + intros w2 output Hrun.
      exact (Hrun_any _ _ _ _ _ Hread Hparse Hscripts Hkey Hrun).
  - intros Hkey.
    apply (Hskip_any _ _ Hread Hparse).
    right. exists scripts. split; assumption.
Qed.

(** C9. When the manifest parses to a value that is not an object, or to
    an object whose ["scripts"] value is not an object, [.keys()] on that
    value raises [AttributeError], and [execute] raises that very
    exception: neither [except] clause applies to it. *)
Theorem script_non_object_attribute_error self w w1 text v culprit :
  get_text_contents (osutils self) (manifest_path self) w = (w1, inr text) →
  json_loads text = inr v →
  (culprit = v ∧ is_dict v = false)
  ∨ (∃ d, v = JDict d ∧ d !! "scripts" = Some culprit ∧ is_dict culprit = false) →
  execute json_loads self w
  = (w1, [GetTextContents (manifest_path self)],
     inl (Exn AttributeError
            ("'" +:+ type_name culprit +:+ "' object has no attribute 'keys'"))).
Proof.
  intros Hread Hparse Hshape.
  assert (script_declared self v w1 = (w1, [], inl (no_attribute culprit "keys")))
    as Hdecl.
  { destruct Hshape as [[-> Hv] | (d & -> & Hscripts & Hx)].
    - apply script_declared_not_dict. exact Hv.
    - apply script_declared_scripts_not_dict; assumption. }
  rewrite (script_execute_raised json_loads _ _ _ _ _
             (script_body_lookup_raised json_loads _ _ _ _ _ _ Hread Hparse Hdecl)).
  reflexivity.
Qed.

(** C10. The manifest is read and parsed before any lookup: whatever the
    script name, text that [json.loads] rejects with a [ValueError] makes
    [execute] raise the parse failure after the read alone; and an
    [execute] that returns normally has read the manifest and parsed it. *)
Theorem script_parse_precedes_lookup self w :
  (∀ w1 text e,
     get_text_contents (osutils self) (manifest_path self) w = (w1, inr text) →
     json_loads text = inl e →
     isinstance e ValueError = true →
     execute json_loads self w
     = (w1, [GetTextContents (manifest_path self)],
        inl (Exn ActionFailedError
               (manifest_path self +:+ " is not valid json: " +:+ str e)))) ∧
  (∀ w' tr,
     execute json_loads self w = (w', tr, inr ()) →
     ∃ w1 text v,
       get_text_contents (osutils self) (manifest_path self) w = (w1, inr text) ∧
       json_loads text = inr v).
Proof.
  split.
  - intros w1 text e Hread Hparse He.
    rewrite (script_execute_raised json_loads _ _ _ _ _
               (script_body_parse_raised json_loads _ _ _ _ _ Hread Hparse)).
    rewrite (script_clauses_value_error _ _ He). reflexivity.
  - intros w' tr Hok.
    destruct (get_text_contents (osutils self) (manifest_path self) w)
      as [w1 [e | text]] eqn:Hread.
    { rewrite (script_execute_raised json_loads _ _ _ _ _
                 (script_body_read_raised json_loads _ _ _ _ Hread)) in Hok.
      destruct (script_clauses_raises (manifest_path self) e) as [e' He'].
      rewrite He' in Hok. discriminate Hok. }
    destruct (json_loads text) as [e | v] eqn:Hparse.
    { rewrite (script_execute_raised json_loads _ _ _ _ _
                 (script_body_parse_raised json_loads _ _ _ _ _ Hread Hparse)) in Hok.
      destruct (script_clauses_raises (manifest_path self) e) as [e' He'].
      rewrite He' in Hok. discriminate Hok. }
    exists w1, text, v. split; [reflexivity | exact Hparse].
Qed.
End ScriptActionClaims.

(** ** The script action on the fixtures *)

(** Asked for [build] where only [test] is declared. *)
Lemma script_absent_is_noop_witness :
  result (NodejsNpmScriptAction.execute Double.json_loads (Double.script_action "build")
            (Double.with_manifest Double.manifest_test)) = inr () ∧
  npm_runs (trace (NodejsNpmScriptAction.execute Double.json_loads
                     (Double.script_action "build")
                     (Double.with_manifest Double.manifest_test))) = [] ∧
  final_world (NodejsNpmScriptAction.execute Double.json_loads
                 (Double.script_action "build")
                 (Double.with_manifest Double.manifest_test))
  = Double.with_manifest Double.manifest_test.
Proof.
  apply (script_absent_is_noop Double.json_loads (Double.script_action "build")
           (Double.with_manifest Double.manifest_test)
           (Double.with_manifest Double.manifest_test)
           Double.manifest_test
           {[ "scripts" := JDict {[ "test" := JStr "mocha" ]} ]}).
  - vm_compute. reflexivity.
  - vm_compute. reflexivity.
  - right. exists {[ "test" := JStr "mocha" ]}. split; vm_compute; reflexivity.
Defined.

(** A manifest cut off after ["scripts":]. *)
Lemma script_invalid_json_fails_witness :
  ∃ msg,
    result (NodejsNpmScriptAction.execute Double.json_loads (Double.script_action "build")
              (Double.with_manifest Double.manifest_truncated))
    = inl (Exn ActionFailedError msg) ∧
    msg = "artifacts/package.json" +:+ " is not valid json: "
          +:+ "Expecting value: line 1 column 13 (char 12)" ∧
    contains "artifacts/package.json" msg ∧
    contains "Expecting value: line 1 column 13 (char 12)" msg.
Proof.
  apply (script_invalid_json_fails Double.json_loads (Double.script_action "build")
           (Double.with_manifest Double.manifest_truncated)
           (Double.with_manifest Double.manifest_truncated)
           Double.manifest_truncated
           (Exn JSONDecodeError "Expecting value: line 1 column 13 (char 12)")).
  - vm_compute. reflexivity.
  - vm_compute. reflexivity.
  - vm_compute. reflexivity.
Defined.

(** [build] is declared and the run prints nothing. *)
Lemma script_declared_runs_once_witness :
  NodejsNpmScriptAction.execute Double.json_loads (Double.script_action "build")
    (Double.with_manifest Double.manifest_build)
  = (Double.with_manifest Double.manifest_build,
     [GetTextContents "artifacts/package.json"; NpmRun ["run"; "build"] "artifacts"],
     inr ()).
Proof.
  refine (proj2 (proj2
    (script_declared_runs_once Double.json_loads (Double.script_action "build")
       (Double.with_manifest Double.manifest_build)
       (Double.with_manifest Double.manifest_build)
       Double.manifest_build
       {[ "scripts" := JDict {[ "build" := JStr "tsc" ]} ]}
       {[ "build" := JStr "tsc" ]} _ _ _ _)) _ EmptyString _).
  - vm_compute. reflexivity.
  - vm_compute. reflexivity.
  - vm_compute. reflexivity.
  - exists (JStr "tsc"). vm_compute. reflexivity.
  - vm_compute. reflexivity.
Defined.

(** The empty name, declared. *)
Lemma script_empty_name_not_special_witness :
  NodejsNpmScriptAction.execute Double.json_loads (Double.script_action EmptyString)
    (Double.with_manifest Double.manifest_empty_name)
  = (Double.with_manifest Double.manifest_empty_name,
     [GetTextContents "artifacts/package.json"; NpmRun ["run"; EmptyString] "artifacts"],
     inr ()).
Proof.
  refine (proj2 (proj1
    (script_empty_name_not_special Double.json_loads (Double.script_action EmptyString)
       (Double.with_manifest Double.manifest_empty_name)
       (Double.with_manifest Double.manifest_empty_name)
       Double.manifest_empty_name
       {[ "scripts" := JDict {[ EmptyString := JStr "tsc" ]} ]}
       {[ EmptyString := JStr "tsc" ]} eq_refl _ _ _) _) _ EmptyString _).
  - vm_compute. reflexivity.
  - vm_compute. reflexivity.
  - vm_compute. reflexivity.
  - exists (JStr "tsc"). vm_compute. reflexivity.
  - vm_compute. reflexivity.
Defined.

(** A manifest that is a JSON array. *)
Lemma script_non_object_attribute_error_witness :
  NodejsNpmScriptAction.execute Double.json_loads (Double.script_action "build")
    (Double.with_manifest Double.manifest_list)
  = (Double.with_manifest Double.manifest_list,
     [GetTextContents "artifacts/package.json"],
     inl (Exn AttributeError "'list' object has no attribute 'keys'")).
Proof.
  apply (script_non_object_attribute_error Double.json_loads (Double.script_action "build")
           (Double.with_manifest Double.manifest_list)
           (Double.with_manifest Double.manifest_list)
           Double.manifest_list (JList [JInt 1; JInt 2]) (JList [JInt 1; JInt 2])).
  - vm_compute. reflexivity.
  - vm_compute. reflexivity.
  - left. split; reflexivity.
Defined.

(** A script the truncated manifest could not have declared. *)
Lemma script_parse_precedes_lookup_witness :
  NodejsNpmScriptAction.execute Double.json_loads (Double.script_action "postinstall")
    (Double.with_manifest Double.manifest_truncated)
  = (Double.with_manifest Double.manifest_truncated,
     [GetTextContents "artifacts/package.json"],
     inl (Exn ActionFailedError
            ("artifacts/package.json" +:+ " is not valid json: "
             +:+ "Expecting value: line 1 column 13 (char 12)"))).
Proof.
  apply (proj1 (script_parse_precedes_lookup Double.json_loads
                  (Double.script_action "postinstall")
                  (Double.with_manifest Double.manifest_truncated))
           (Double.with_manifest Double.manifest_truncated)
           Double.manifest_truncated
           (Exn JSONDecodeError "Expecting value: line 1 column 13 (char 12)")).
  - vm_compute. reflexivity.
  - vm_compute. reflexivity.
  - vm_compute. reflexivity.
Defined.

(** ** Further runs on the fixtures *)

Example script_no_scripts_key :
  NodejsNpmScriptAction.execute Double.json_loads (Double.script_action "build")
    (Double.with_manifest Double.manifest_plain)
  = (Double.with_manifest Double.manifest_plain,
     [GetTextContents "artifacts/package.json"], inr ()).
Proof. vm_compute. reflexivity. Qed.

Example script_null_scripts :
  result (NodejsNpmScriptAction.execute Double.json_loads (Double.script_action "build")
            (Double.with_manifest Double.manifest_null_scripts))
  = inl (Exn AttributeError "'NoneType' object has no attribute 'keys'").
Proof. vm_compute. reflexivity. Qed.

Example script_manifest_missing :
  result (NodejsNpmScriptAction.execute Double.json_loads (Double.script_action "build") ∅)
  = inl (Double.no_such_file "artifacts/package.json").
Proof. vm_compute. reflexivity. Qed.

Example install_returns :
  NodejsNpmInstallAction.execute (Double.install_action Double.npm) ∅
  = (∅, [NpmRun ["install"; "-q"; "--no-audit"; "--no-save"; "--production"] "artifacts"],
     inr ()).
Proof. vm_compute. reflexivity. Qed.

(** * Further properties of the actions *)

Lemma script_clauses_never_npm (manifest_path : string) (e e' : exn) :
  script_clauses manifest_path e = inl e' → isinstance e' NpmExecutionError = false.
Proof.
  unfold script_clauses. destruct (isinstance e NpmExecutionError) eqn:He.
  { intros [= <-]. reflexivity. }
  destruct (isinstance e ValueError); intros [= <-]; [reflexivity | exact He].
Qed.

Lemma script_clauses_other (manifest_path : string) (e : exn) :
  isinstance e NpmExecutionError = false → isinstance e ValueError = false →
  script_clauses manifest_path e = inl e.
Proof. intros Hnpm Hvalue. unfold script_clauses. rewrite Hnpm, Hvalue. reflexivity. Qed.

(** A parsed value is no dict, a dict without ["scripts"], or a dict whose
    ["scripts"] is or is not a dict. *)
Lemma json_shape (v : json) :
  is_dict v = false
  ∨ ∃ d, v = JDict d ∧
      (d !! "scripts" = None
       ∨ ∃ x, d !! "scripts" = Some x ∧ (is_dict x = false ∨ ∃ scripts, x = JDict scripts)).
Proof.
  destruct v as [| | | | | | d]; try (left; reflexivity).
  right. exists d. split; [reflexivity |].
  destruct (d !! "scripts") as [x |] eqn:Hx; [right | left; reflexivity].
  exists x. split; [reflexivity |].
  destruct x as [| | | | | | scripts]; try (left; reflexivity).
  right. exists scripts. reflexivity.
Qed.

(** [.keys()] on a value that is not a dict: the [AttributeError] leaves
    [execute] as it is. *)
Lemma script_non_object_lookup {W : Type} (json_loads : string → outcome json)
    (self : NodejsNpmScriptAction.t W) (w w1 : W) (text : string) (v culprit : json) :
  get_text_contents (NodejsNpmScriptAction.osutils self)
    (NodejsNpmScriptAction.manifest_path self) w = (w1, inr text) →
  json_loads text = inr v →
  (culprit = v ∧ is_dict v = false)
  ∨ (∃ d, v = JDict d ∧ d !! "scripts" = Some culprit ∧ is_dict culprit = false) →
  NodejsNpmScriptAction.execute json_loads self w
  = (w1, [GetTextContents (NodejsNpmScriptAction.manifest_path self)],
     inl (no_attribute culprit "keys")).
Proof.
  intros Hread Hparse Hshape.
  assert (NodejsNpmScriptAction.script_declared self v w1
          = (w1, [], inl (no_attribute culprit "keys"))) as Hdecl.
  { destruct Hshape as [[-> Hv] | (d & -> & Hscripts & Hx)].
    - apply script_declared_not_dict. exact Hv.
    - apply script_declared_scripts_not_dict; assumption. }
  rewrite (script_execute_raised json_loads _ _ _ _ _
             (script_body_lookup_raised json_loads _ _ _ _ _ _ Hread Hparse Hdecl)).
  reflexivity.
Qed.

Section ExecuteRuns.
Context {W : Type}.

(** Every pack execution is one of the five cases. *)
Lemma pack_execute_run (self : NodejsNpmPackAction.t W) (w : W) :
  pack_run self w (NodejsNpmPackAction.execute self w).
Proof.
  destruct (dirname (NodejsNpmPackAction.osutils self)
              (NodejsNpmPackAction.manifest_path self) w)
    as [w1 [e | manifest_dir]] eqn:H1.
  { rewrite (pack_execute_raised _ _ _ _ _ (pack_body_dirname_raised _ _ _ _ H1)).
    exact (pack_dirname_raised self w w1 e H1). }
  destruct (abspath (NodejsNpmPackAction.osutils self) manifest_dir w1)
    as [w2 [e | abs_dir]] eqn:H2.
  { rewrite (pack_execute_raised _ _ _ _ _
               (pack_body_abspath_raised _ _ _ _ _ _ H1 H2)).
    exact (pack_abspath_raised self w w1 w2 manifest_dir e H1 H2). }
  destruct (run (NodejsNpmPackAction.subprocess_npm self)
              ["pack"; "-q"; "file:" +:+ abs_dir]
              (NodejsNpmPackAction.scratch_dir self) w2)
    as [w3 [e | tarfile_name]] eqn:H3.
  { rewrite (pack_execute_raised _ _ _ _ _
               (pack_body_run_raised _ _ _ _ _ _ _ _ H1 H2 H3)).
    exact (pack_npm_raised self w w1 w2 w3 manifest_dir abs_dir e H1 H2 H3). }
  destruct (joinpath (NodejsNpmPackAction.osutils self)
              (NodejsNpmPackAction.scratch_dir self) tarfile_name w3)
    as [w4 [e | tarfile_path]] eqn:H4.
  { rewrite (pack_execute_raised _ _ _ _ _
               (pack_body_joinpath_raised _ _ _ _ _ _ _ _ _ _ H1 H2 H3 H4)).
    exact (pack_joinpath_raised self w w1 w2 w3 w4 manifest_dir abs_dir
             tarfile_name e H1 H2 H3 H4). }
  destruct (extract_tarfile (NodejsNpmPackAction.osutils self) tarfile_path
              (NodejsNpmPackAction.artifacts_dir self) w4) as [w5 r] eqn:H5.
  pose proof (pack_body_extract _ _ _ _ _ _ _ _ _ _ _ _ H1 H2 H3 H4 H5) as Hbody.
  destruct r as [e | []].
  - rewrite (pack_execute_raised _ _ _ _ _ Hbody).
    exact (pack_extracted self w w1 w2 w3 w4 w5 manifest_dir abs_dir tarfile_name
             tarfile_path (inl e) H1 H2 H3 H4 H5).
  - rewrite (pack_execute_returns _ _ _ _ _ _ _ _ _ _ _ H1 H2 H3 H4 H5).
    exact (pack_extracted self w w1 w2 w3 w4 w5 manifest_dir abs_dir tarfile_name
             tarfile_path (inr ()) H1 H2 H3 H4 H5).
Qed.

(** Every script execution is one of the five cases. *)
Lemma script_execute_in_run (json_loads : string → outcome json)
    (self : NodejsNpmScriptAction.t W) (w : W) :
  script_run json_loads self w (NodejsNpmScriptAction.execute json_loads self w).
Proof.
  destruct (get_text_contents (NodejsNpmScriptAction.osutils self)
              (NodejsNpmScriptAction.manifest_path self) w)
    as [w1 [e | text]] eqn:Hread.
  { rewrite (script_execute_raised json_loads _ _ _ _ _
               (script_body_read_raised json_loads _ _ _ _ Hread)).
    exact (script_read_raised json_loads self w w1 e Hread). }
  destruct (json_loads text) as [e | v] eqn:Hparse.
  { rewrite (script_execute_raised json_loads _ _ _ _ _
               (script_body_parse_raised json_loads _ _ _ _ _ Hread Hparse)).
    exact (script_parse_raised json_loads self w w1 text e Hread Hparse). }
  destruct (json_shape v)
    as [Hv | (d & -> & [Hnone | (x & Hx & [Hnd | (scripts & ->)])])].
  - rewrite (script_non_object_lookup json_loads self w w1 text v v Hread Hparse
               (or_introl (conj eq_refl Hv))).
    exact (script_keys_raised json_loads self w w1 text v v Hread Hparse
             (or_introl (conj eq_refl Hv))).
  - rewrite (script_execute_skip json_loads _ _ _ _ _ Hread Hparse (or_introl Hnone)).
    exact (script_skipped json_loads self w w1 text d Hread Hparse (or_introl Hnone)).
  - assert ((x = JDict d ∧ is_dict (JDict d) = false)
            ∨ (∃ d', JDict d = JDict d' ∧ d' !! "scripts" = Some x ∧ is_dict x = false))
      as Hshape by (right; exists d; auto).
    rewrite (script_non_object_lookup json_loads self w w1 text (JDict d) x
               Hread Hparse Hshape).
    exact (script_keys_raised json_loads self w w1 text (JDict d) x Hread Hparse Hshape).
  - destruct (scripts !! NodejsNpmScriptAction.script_name self) as [cmd |] eqn:Hname.
    + destruct (run (NodejsNpmScriptAction.subprocess_npm self)
                  ["run"; NodejsNpmScriptAction.script_name self]
                  (NodejsNpmScriptAction.working_dir self) w1) as [w2 r] eqn:Hrun.
      assert (is_Some (scripts !! NodejsNpmScriptAction.script_name self)) as Hsome
        by (rewrite Hname; eauto).
      rewrite (script_execute_run json_loads _ _ _ _ _ _ _ _
                 Hread Hparse Hx Hsome Hrun).
      exact (script_ran json_loads self w w1 w2 text d scripts r
               Hread Hparse Hx Hsome Hrun).
    + assert (d !! "scripts" = None
              ∨ ∃ scripts, d !! "scripts" = Some (JDict scripts)
                           ∧ scripts !! NodejsNpmScriptAction.script_name self = None)
        as Habsent by (right; exists scripts; auto).
      rewrite (script_execute_skip json_loads _ _ _ _ _ Hread Hparse Habsent).
      exact (script_skipped json_loads self w w1 text d Hread Hparse Habsent).
Qed.
End ExecuteRuns.

(** ** The pack action, over all executions *)

(** Goes through the elements of an explicit trace that [H] says holds a
    given call, leaving the positions where the constructors agree. *)
Ltac trace_member H :=
  repeat (apply elem_of_cons in H as [H | H]; [try discriminate H |]);
  try (apply elem_of_nil in H; destruct H).

Section PackActionExtras.
Import NodejsNpmPackAction.
Context {W : Type}.
Implicit Types (self : t W) (w : W).

(** X2. When [dirname] or [abspath] raises, the pack action stops there:
    the executor is never invoked and nothing is extracted; the exception
    comes out as [ActionFailedError] if it is an [NpmExecutionError] and
    unchanged otherwise. *)
Theorem pack_path_failure_skips_executor self w wf e :
  (dirname (osutils self) (manifest_path self) w = (wf, inl e)
   ∨ ∃ w1 manifest_dir,
       dirname (osutils self) (manifest_path self) w = (w1, inr manifest_dir) ∧
       abspath (osutils self) manifest_dir w1 = (wf, inl e)) →
  npm_runs (trace (execute self w)) = [] ∧
  (∀ tarfile_path unpacked_path,
     ExtractTarfile tarfile_path unpacked_path ∉ trace (execute self w)) ∧
  final_world (execute self w) = wf ∧
  result (execute self w)
  = (if isinstance e NpmExecutionError
     then inl (Exn ActionFailedError (str e)) else inl e).
Proof.
  intros [H1 | (w1 & manifest_dir & H1 & H2)].
  - rewrite (pack_execute_raised _ _ _ _ _ (pack_body_dirname_raised _ _ _ _ H1)).
    repeat split. intros tarfile_path unpacked_path Hin.
    unfold trace in Hin. cbn [fst snd] in Hin. trace_member Hin.
  - rewrite (pack_execute_raised _ _ _ _ _
               (pack_body_abspath_raised _ _ _ _ _ _ H1 H2)).
    repeat split. intros tarfile_path unpacked_path Hin.
    unfold trace in Hin. cbn [fst snd] in Hin. trace_member Hin.
Qed.

(** X3. Whatever the collaborators do, a pack execution starts with
    [dirname] of the manifest path, invokes the executor at most once, and
    then only as [pack -q file:<dir>] in the scratch directory; an
    extraction, if any, is its last call and unpacks into the artifacts
    directory. *)
Theorem pack_trace_invariant self w :
  head (trace (execute self w)) = Some (Dirname (manifest_path self)) ∧
  (List.length (npm_runs (trace (execute self w))) ≤ 1)%nat ∧
  (∀ args cwd,
     NpmRun args cwd ∈ trace (execute self w) →
     cwd = scratch_dir self ∧ ∃ abs_dir, args = ["pack"; "-q"; "file:" +:+ abs_dir]) ∧
  (∀ tarfile_path unpacked_path,
     ExtractTarfile tarfile_path unpacked_path ∈ trace (execute self w) →
     unpacked_path = artifacts_dir self ∧
     last (trace (execute self w)) = Some (ExtractTarfile tarfile_path unpacked_path)).
Proof.
  destruct (pack_execute_run self w); unfold trace; cbn [fst snd head].
  all: split; [reflexivity |].
  all: split; [apply Nat.leb_le; reflexivity |].
  all: split; [intros args cwd Hin | intros tarfile_path' unpacked_path Hin].
  all: trace_member Hin.
  all: injection Hin as -> ->.
  all: split; [reflexivity | first [reflexivity | eexists; reflexivity]].
Qed.

(** X4. An extraction is only ever attempted on the archive the executor
    has just named: if [extract_tarfile] appears in the trace, then
    [dirname], [abspath], the [pack] invocation and [joinpath] all returned,
    the archive path is [joinpath]'s result for the scratch directory and
    the printed name, and the destination is the artifacts directory. *)
Theorem pack_extraction_follows_packing self w tarfile_path unpacked_path :
  ExtractTarfile tarfile_path unpacked_path ∈ trace (execute self w) →
  unpacked_path = artifacts_dir self ∧
  ∃ w1 w2 w3 w4 manifest_dir abs_dir tarfile_name,
    dirname (osutils self) (manifest_path self) w = (w1, inr manifest_dir) ∧
    abspath (osutils self) manifest_dir w1 = (w2, inr abs_dir) ∧
    run (subprocess_npm self) ["pack"; "-q"; "file:" +:+ abs_dir] (scratch_dir self) w2
      = (w3, inr tarfile_name) ∧
    joinpath (osutils self) (scratch_dir self) tarfile_name w3 = (w4, inr tarfile_path).
Proof.
  destruct (pack_execute_run self w)
    as [ | | | | w1 w2 w3 w4 w5 manifest_dir abs_dir tarfile_name tarfile_path' r
             H1 H2 H3 H4 H5];
    unfold trace; cbn [fst snd]; intros Hin.
  all: trace_member Hin.
  injection Hin as -> ->. split; [reflexivity |].
  exists w1, w2, w3, w4, manifest_dir, abs_dir, tarfile_name. auto.
Qed.

(** X5. The pack action returns normally exactly when all five calls
    return. *)
Theorem pack_returns_iff_calls_return self w :
  (∃ w' tr, execute self w = (w', tr, inr ()))
  ↔ ∃ w1 w2 w3 w4 w5 manifest_dir abs_dir tarfile_name tarfile_path,
      dirname (osutils self) (manifest_path self) w = (w1, inr manifest_dir) ∧
      abspath (osutils self) manifest_dir w1 = (w2, inr abs_dir) ∧
      run (subprocess_npm self) ["pack"; "-q"; "file:" +:+ abs_dir] (scratch_dir self) w2
        = (w3, inr tarfile_name) ∧
      joinpath (osutils self) (scratch_dir self) tarfile_name w3 = (w4, inr tarfile_path) ∧
      extract_tarfile (osutils self) tarfile_path (artifacts_dir self) w4 = (w5, inr ()).
Proof.
  split.
  - intros (w' & tr & Hok). revert Hok.
    destruct (pack_execute_run self w)
      as [ w1 e | w1 w2 ? e | w1 w2 w3 ? ? e | w1 w2 w3 w4 ? ? ? e
         | w1 w2 w3 w4 w5 manifest_dir abs_dir tarfile_name tarfile_path r
             H1 H2 H3 H4 H5];
      intros Hok.
    1-4: injection Hok as _ _ Hres; unfold npm_clause in Hres;
         destruct (isinstance e NpmExecutionError); discriminate Hres.
    destruct r as [e | []].
    + injection Hok as _ _ Hres. unfold npm_clause in Hres.
      destruct (isinstance e NpmExecutionError); discriminate Hres.
    + exists w1, w2, w3, w4, w5, manifest_dir, abs_dir, tarfile_name, tarfile_path.
      auto.
  - intros (w1 & w2 & w3 & w4 & w5 & manifest_dir & abs_dir & tarfile_name
            & tarfile_path & H1 & H2 & H3 & H4 & H5).
    eexists _, _. exact (pack_execute_returns _ _ _ _ _ _ _ _ _ _ _ H1 H2 H3 H4 H5).
Qed.
End PackActionExtras.

(** ** The install action, over all executions *)

Section InstallActionExtras.
Import NodejsNpmInstallAction.
Context {W : Type}.
Implicit Types (self : t W) (w : W).

(** X6. The install action returns normally exactly when the executor
    returns, whatever it printed; an exception of the executor that is not
    an [NpmExecutionError] leaves [execute] unchanged. *)
Theorem install_outcome_follows_run self w :
  (result (execute self w) = inr ()
   ↔ ∃ w1 output,
       run (subprocess_npm self)
         ["install"; "-q"; "--no-audit"; "--no-save"; "--production"]
         (artifacts_dir self) w = (w1, inr output)) ∧
  (∀ w1 e,
     run (subprocess_npm self)
       ["install"; "-q"; "--no-audit"; "--no-save"; "--production"]
       (artifacts_dir self) w = (w1, inl e) →
     isinstance e NpmExecutionError = false →
     result (execute self w) = inl e).
Proof.
  destruct (run (subprocess_npm self)
              ["install"; "-q"; "--no-audit"; "--no-save"; "--production"]
              (artifacts_dir self) w) as [w1 r] eqn:Hrun.
  rewrite (install_execute_run _ _ _ _ Hrun). unfold result. cbn [snd].
  split; [split |].
  - destruct r as [e | output]; [| eauto].
    unfold npm_clause. destruct (isinstance e NpmExecutionError); discriminate.
  - intros (w1' & output & [= -> ->]). reflexivity.
  - intros w1' e [= -> ->] He. unfold npm_clause. rewrite He. reflexivity.
Qed.
End InstallActionExtras.

(** ** No action lets an executor error through *)

Section NoExecutorError.
Context {W : Type}.

(** X1. Whatever the collaborators do, an exception that leaves [execute]
    of the pack, install or script action is never an [NpmExecutionError]. *)
Theorem execute_never_raises_npm_error :
  (∀ (self : NodejsNpmPackAction.t W) (w : W) (e : exn),
     result (NodejsNpmPackAction.execute self w) = inl e →
     isinstance e NpmExecutionError = false) ∧
  (∀ (self : NodejsNpmInstallAction.t W) (w : W) (e : exn),
     result (NodejsNpmInstallAction.execute self w) = inl e →
     isinstance e NpmExecutionError = false) ∧
  (∀ (json_loads : string → outcome json) (self : NodejsNpmScriptAction.t W)
     (w : W) (e : exn),
     result (NodejsNpmScriptAction.execute json_loads self w) = inl e →
     isinstance e NpmExecutionError = false).
Proof.
  split; [| split].
  - intros self w e.
    destruct (pack_execute_run self w) as [ | | | | ? ? ? ? ? ? ? ? ? r];
      unfold result; cbn [snd]; try apply npm_clause_never_npm.
    destruct r as [e0 | []]; [apply npm_clause_never_npm | discriminate].
  - intros self w e.
    destruct (run (NodejsNpmInstallAction.subprocess_npm self)
                ["install"; "-q"; "--no-audit"; "--no-save"; "--production"]
                (NodejsNpmInstallAction.artifacts_dir self) w) as [w1 r] eqn:Hrun.
    rewrite (install_execute_run _ _ _ _ Hrun). unfold result. cbn [snd].
    destruct r as [e0 | output]; [apply npm_clause_never_npm | discriminate].
  - intros json_loads self w e.
    destruct (script_execute_in_run json_loads self w) as [ | | | | ? ? ? ? ? r];
      unfold result; cbn [snd]; try apply script_clauses_never_npm.
    + intros [= <-]. reflexivity.
    + discriminate.
    + destruct r as [e0 | output]; [apply script_clauses_never_npm | discriminate].
Qed.
End NoExecutorError.

(** ** The script action, over all executions *)

Section ScriptActionExtras.
Import NodejsNpmScriptAction.
Context {W : Type}.
Variable json_loads : string → outcome json.
Implicit Types (self : t W) (w : W) (d scripts : gmap string json).

(** X7. When the declared script is run and the executor raises
    [NpmExecutionError] with message [m], the script action raises
    [ActionFailedError] with the message [m]. *)
Theorem script_executor_fault_translated self w w1 w2 text d scripts m :
  get_text_contents (osutils self) (manifest_path self) w = (w1, inr text) →
  json_loads text = inr (JDict d) →
  d !! "scripts" = Some (JDict scripts) →
  is_Some (scripts !! script_name self) →
  run (subprocess_npm self) ["run"; script_name self] (working_dir self) w1
    = (w2, inl (Exn NpmExecutionError m)) →
  execute json_loads self w
  = (w2, [GetTextContents (manifest_path self);
          NpmRun ["run"; script_name self] (working_dir self)],
     inl (Exn ActionFailedError m)).
Proof.
  intros Hread Hparse Hscripts Hname Hrun.
  rewrite (script_execute_run json_loads _ _ _ _ _ _ _ _
             Hread Hparse Hscripts Hname Hrun).
  reflexivity.
Qed.

(** X8. The [except ValueError] clause covers the whole [try] block: a
    [ValueError] raised by reading the manifest, or by the executor while
    it runs the declared script of a manifest that parsed, is reported as
    [<manifest_path> is not valid json: <str e>]. *)
Theorem script_value_error_reported_as_invalid_json self w wf e :
  isinstance e ValueError = true →
  (get_text_contents (osutils self) (manifest_path self) w = (wf, inl e)
   ∨ ∃ w1 text d scripts,
       get_text_contents (osutils self) (manifest_path self) w = (w1, inr text) ∧
       json_loads text = inr (JDict d) ∧
       d !! "scripts" = Some (JDict scripts) ∧
       is_Some (scripts !! script_name self) ∧
       run (subprocess_npm self) ["run"; script_name self] (working_dir self) w1
         = (wf, inl e)) →
  final_world (execute json_loads self w) = wf ∧
  result (execute json_loads self w)
  = inl (Exn ActionFailedError (manifest_path self +:+ " is not valid json: " +:+ str e)).
Proof.
  intros He [Hread | (w1 & text & d & scripts & Hread & Hparse & Hscripts & Hname & Hrun)].
  - rewrite (script_execute_raised json_loads _ _ _ _ _
               (script_body_read_raised json_loads _ _ _ _ Hread)).
    unfold final_world, result. cbn [fst snd].
    rewrite (script_clauses_value_error _ _ He). split; reflexivity.
  - rewrite (script_execute_run json_loads _ _ _ _ _ _ _ _
               Hread Hparse Hscripts Hname Hrun).
    unfold final_world, result. cbn [fst snd].
    rewrite (script_clauses_value_error _ _ He). split; reflexivity.
Qed.

(** X9. An exception that is neither an [NpmExecutionError] nor a
    [ValueError], raised by reading the manifest, by [json.loads] or by the
    executor running the declared script, leaves [execute] unchanged. *)
Theorem script_other_failure_propagates self w wf e :
  isinstance e NpmExecutionError = false →
  isinstance e ValueError = false →
  (get_text_contents (osutils self) (manifest_path self) w = (wf, inl e)
   ∨ (∃ text,
        get_text_contents (osutils self) (manifest_path self) w = (wf, inr text) ∧
        json_loads text = inl e)
   ∨ ∃ w1 text d scripts,
       get_text_contents (osutils self) (manifest_path self) w = (w1, inr text) ∧
       json_loads text = inr (JDict d) ∧
       d !! "scripts" = Some (JDict scripts) ∧
       is_Some (scripts !! script_name self) ∧
       run (subprocess_npm self) ["run"; script_name self] (working_dir self) w1
         = (wf, inl e)) →
  final_world (execute json_loads self w) = wf ∧
  result (execute json_loads self w) = inl e.
Proof.
  intros Hnpm Hvalue
    [Hread | [(text & Hread & Hparse)
             | (w1 & text & d & scripts & Hread & Hparse & Hscripts & Hname & Hrun)]].
  - rewrite (script_execute_raised json_loads _ _ _ _ _
               (script_body_read_raised json_loads _ _ _ _ Hread)).
    unfold final_world, result. cbn [fst snd].
    rewrite (script_clauses_other _ _ Hnpm Hvalue). split; reflexivity.
  - rewrite (script_execute_raised json_loads _ _ _ _ _
               (script_body_parse_raised json_loads _ _ _ _ _ Hread Hparse)).
    unfold final_world, result. cbn [fst snd].
    rewrite (script_clauses_other _ _ Hnpm Hvalue). split; reflexivity.
  - rewrite (script_execute_run json_loads _ _ _ _ _ _ _ _
               Hread Hparse Hscripts Hname Hrun).
    unfold final_world, result. cbn [fst snd].
    rewrite (script_clauses_other _ _ Hnpm Hvalue). split; reflexivity.
Qed.

(** X10. The membership test makes no call and can fail in one way only:
    [.keys()] on a value that is not a dict. The subscript
    [parsed_json["scripts"]] is guarded by the left operand of [and], so it
    raises neither [KeyError] nor [TypeError]. *)
Theorem script_lookup_raises_only_attribute_error self v w w' tr e :
  script_declared self v w = (w', tr, inl e) →
  w' = w ∧ tr = [] ∧
  ∃ culprit,
    is_dict culprit = false ∧
    e = Exn AttributeError
          ("'" +:+ type_name culprit +:+ "' object has no attribute 'keys'") ∧
    (culprit = v ∨ ∃ d, v = JDict d ∧ d !! "scripts" = Some culprit).
Proof.
  destruct (json_shape v)
    as [Hv | (d & -> & [Hnone | (x & Hx & [Hnd | (scripts & ->)])])].
  - rewrite (script_declared_not_dict self v w Hv). intros [= <- <- <-].
    split; [reflexivity |]. split; [reflexivity |]. exists v. auto.
  - rewrite (script_declared_no_scripts self d w Hnone). discriminate.
  - rewrite (script_declared_scripts_not_dict self d x w Hx Hnd). intros [= <- <- <-].
    split; [reflexivity |]. split; [reflexivity |]. exists x.
    split; [exact Hnd |]. split; [reflexivity |]. right. exists d. auto.
  - rewrite (script_declared_scripts self d scripts w Hx). discriminate.
Qed.

(** X11. The executor is invoked only for a declared script: if a [run]
    call appears in the trace, it is [run <script_name>] in the working
    directory, and the manifest was read and parsed to an object whose
    ["scripts"] object has the name as a key. *)
Theorem script_run_implies_declared self w args cwd :
  NpmRun args cwd ∈ trace (execute json_loads self w) →
  args = ["run"; script_name self] ∧ cwd = working_dir self ∧
  ∃ w1 text d scripts,
    get_text_contents (osutils self) (manifest_path self) w = (w1, inr text) ∧
    json_loads text = inr (JDict d) ∧
    d !! "scripts" = Some (JDict scripts) ∧
    is_Some (scripts !! script_name self).
Proof.
  destruct (script_execute_in_run json_loads self w)
    as [ | | | | w1 w2 text d scripts r Hread Hparse Hscripts Hname Hrun];
    unfold trace; cbn [fst snd]; intros Hin; trace_member Hin.
  injection Hin as -> ->. split; [reflexivity |]. split; [reflexivity |].
  exists w1, text, d, scripts. auto.
Qed.

(** X12. Whatever the collaborators do, a script execution reads the
    manifest first and then either stops or invokes the executor once, as
    [run <script_name>] in the working directory; it makes no other call. *)
Theorem script_trace_shape self w :
  trace (execute json_loads self w) = [GetTextContents (manifest_path self)]
  ∨ trace (execute json_loads self w)
    = [GetTextContents (manifest_path self);
       NpmRun ["run"; script_name self] (working_dir self)].
Proof.
  destruct (script_execute_in_run json_loads self w); unfold trace; cbn [fst snd];
    first [left; reflexivity | right; reflexivity].
Qed.
End ScriptActionExtras.

(** ** The further properties on the doubles *)

(** The three actions over failing executors: what comes out is the
    pipeline failure. *)
Lemma execute_never_raises_npm_error_witness :
  isinstance (Exn ActionFailedError "NPM Failed: exit code 1") NpmExecutionError = false.
Proof.
  refine (proj1 execute_never_raises_npm_error
            (Double.pack_action Double.npm_failing) ∅
            (Exn ActionFailedError "NPM Failed: exit code 1") _).
  vm_compute. reflexivity.
Defined.

(** The working directory is gone: [abspath] fails and [npm] is not run. *)
Lemma pack_path_failure_skips_executor_witness :
  npm_runs (trace (NodejsNpmPackAction.execute
                     (Faulty.pack_action Faulty.osutils_no_cwd) ∅)) = [] ∧
  (∀ tarfile_path unpacked_path,
     ExtractTarfile tarfile_path unpacked_path
     ∉ trace (NodejsNpmPackAction.execute (Faulty.pack_action Faulty.osutils_no_cwd) ∅)) ∧
  final_world (NodejsNpmPackAction.execute (Faulty.pack_action Faulty.osutils_no_cwd) ∅)
  = ∅ ∧
  result (NodejsNpmPackAction.execute (Faulty.pack_action Faulty.osutils_no_cwd) ∅)
  = inl (Exn OSError "[Errno 2] No such file or directory").
Proof.
  refine (pack_path_failure_skips_executor (Faulty.pack_action Faulty.osutils_no_cwd)
            ∅ ∅ (Exn OSError "[Errno 2] No such file or directory") _).
  right. exists ∅, "/dir:manifest". split; reflexivity.
Defined.

(** The one executor call of a full pack run is made in the scratch
    directory. *)
Lemma pack_trace_invariant_witness :
  "scratch_dir" = "scratch_dir" ∧
  ∃ abs_dir, ["pack"; "-q"; "file:/abs:/dir:manifest"] = ["pack"; "-q"; "file:" +:+ abs_dir].
Proof.
  refine (proj1 (proj2 (proj2 (pack_trace_invariant (Double.pack_action Double.npm) ∅)))
            ["pack"; "-q"; "file:/abs:/dir:manifest"] "scratch_dir" _).
  apply (bool_decide_unpack _). vm_compute. exact I.
Defined.

(** The archive a full pack run extracts is the one it packed. *)
Lemma pack_extraction_follows_packing_witness :
  "artifacts" = "artifacts" ∧
  ∃ w1 w2 w3 w4 manifest_dir abs_dir tarfile_name,
    dirname Double.osutils "manifest" ∅ = (w1, inr manifest_dir) ∧
    abspath Double.osutils manifest_dir w1 = (w2, inr abs_dir) ∧
    run Double.npm ["pack"; "-q"; "file:" +:+ abs_dir] "scratch_dir" w2
      = (w3, inr tarfile_name) ∧
    joinpath Double.osutils "scratch_dir" tarfile_name w3
      = (w4, inr "scratch_dir/package.tar").
Proof.
  refine (pack_extraction_follows_packing (Double.pack_action Double.npm) ∅
            "scratch_dir/package.tar" "artifacts" _).
  apply (bool_decide_unpack _). vm_compute. exact I.
Defined.

(** All five calls return, so the pack action returns. *)
Lemma pack_returns_iff_calls_return_witness :
  ∃ w' tr, NodejsNpmPackAction.execute (Double.pack_action Double.npm) ∅ = (w', tr, inr ()).
Proof.
  refine (proj2 (pack_returns_iff_calls_return (Double.pack_action Double.npm) ∅) _).
  exists ∅, ∅, (<["scratch_dir/package.tar" := "file:/abs:/dir:manifest"]> ∅),
    (<["scratch_dir/package.tar" := "file:/abs:/dir:manifest"]> ∅),
    (<["artifacts/package" := "file:/abs:/dir:manifest"]>
       (<["scratch_dir/package.tar" := "file:/abs:/dir:manifest"]> ∅)),
    "/dir:manifest", "/abs:/dir:manifest", "package.tar", "scratch_dir/package.tar".
  repeat split; vm_compute; reflexivity.
Defined.

(** The process cannot be started: the [OSError] comes out of the install
    action as it is. *)
Lemma install_outcome_follows_run_witness :
  result (NodejsNpmInstallAction.execute (Double.install_action Faulty.npm_os_error) ∅)
  = inl (Exn OSError "[Errno 13] Permission denied: 'npm'").
Proof.
  refine (proj2 (install_outcome_follows_run
                   (Double.install_action Faulty.npm_os_error) ∅)
            ∅ (Exn OSError "[Errno 13] Permission denied: 'npm'") _ _);
    reflexivity.
Defined.

(** [build] is declared and the executor exits non-zero. *)
Lemma script_executor_fault_translated_witness :
  NodejsNpmScriptAction.execute Double.json_loads
    (Faulty.script_action Double.npm_failing "build")
    (Double.with_manifest Double.manifest_build)
  = (Double.with_manifest Double.manifest_build,
     [GetTextContents "artifacts/package.json"; NpmRun ["run"; "build"] "artifacts"],
     inl (Exn ActionFailedError "NPM Failed: exit code 1")).
Proof.
  refine (script_executor_fault_translated Double.json_loads
            (Faulty.script_action Double.npm_failing "build")
            (Double.with_manifest Double.manifest_build)
            (Double.with_manifest Double.manifest_build)
            (Double.with_manifest Double.manifest_build)
            Double.manifest_build
            {[ "scripts" := JDict {[ "build" := JStr "tsc" ]} ]}
            {[ "build" := JStr "tsc" ]} "NPM Failed: exit code 1" _ _ _ _ _).
  - vm_compute. reflexivity.
  - vm_compute. reflexivity.
  - vm_compute. reflexivity.
  - exists (JStr "tsc"). vm_compute. reflexivity.
  - vm_compute. reflexivity.
Defined.

(** A valid manifest, and an executor that raises [ValueError]: the
    failure names the manifest. *)
Lemma script_value_error_reported_as_invalid_json_witness :
  final_world (NodejsNpmScriptAction.execute Double.json_loads
                 (Faulty.script_action Faulty.npm_value_error "build")
                 (Double.with_manifest Double.manifest_build))
  = Double.with_manifest Double.manifest_build ∧
  result (NodejsNpmScriptAction.execute Double.json_loads
            (Faulty.script_action Faulty.npm_value_error "build")
            (Double.with_manifest Double.manifest_build))
  = inl (Exn ActionFailedError
           ("artifacts/package.json" +:+ " is not valid json: " +:+ "embedded null byte")).
Proof.
  refine (script_value_error_reported_as_invalid_json Double.json_loads
            (Faulty.script_action Faulty.npm_value_error "build")
            (Double.with_manifest Double.manifest_build)
            (Double.with_manifest Double.manifest_build)
            (Exn ValueError "embedded null byte") _ _).
  - reflexivity.
  - right.
    exists (Double.with_manifest Double.manifest_build), Double.manifest_build,
      {[ "scripts" := JDict {[ "build" := JStr "tsc" ]} ]}, {[ "build" := JStr "tsc" ]}.
    repeat split; try (vm_compute; reflexivity).
    exists (JStr "tsc"). vm_compute. reflexivity.
Defined.

(** No manifest at the path: the [OSError] of the read comes out as it is. *)
Lemma script_other_failure_propagates_witness :
  final_world (NodejsNpmScriptAction.execute Double.json_loads
                 (Double.script_action "build") ∅) = ∅ ∧
  result (NodejsNpmScriptAction.execute Double.json_loads (Double.script_action "build") ∅)
  = inl (Double.no_such_file "artifacts/package.json").
Proof.
  refine (script_other_failure_propagates Double.json_loads (Double.script_action "build")
            ∅ ∅ (Double.no_such_file "artifacts/package.json") _ _ _).
  - reflexivity.
  - reflexivity.
  - left. vm_compute. reflexivity.
Defined.

(** The membership test on a JSON array. *)
Lemma script_lookup_raises_only_attribute_error_witness :
  (∅ : Double.world) = ∅ ∧ ([] : list call) = [] ∧
  ∃ culprit,
    is_dict culprit = false ∧
    Exn AttributeError "'list' object has no attribute 'keys'"
    = Exn AttributeError
        ("'" +:+ type_name culprit +:+ "' object has no attribute 'keys'") ∧
    (culprit = JList [JInt 1; JInt 2]
     ∨ ∃ d, JList [JInt 1; JInt 2] = JDict d ∧ d !! "scripts" = Some culprit).
Proof.
  refine (script_lookup_raises_only_attribute_error (Double.script_action "build")
            (JList [JInt 1; JInt 2]) ∅ ∅ []
            (Exn AttributeError "'list' object has no attribute 'keys'") _).
  reflexivity.
Defined.

(** The run of [build] was called for by the manifest. *)
Lemma script_run_implies_declared_witness :
  ["run"; "build"] = ["run"; "build"] ∧ "artifacts" = "artifacts" ∧
  ∃ w1 text d scripts,
    get_text_contents Double.osutils "artifacts/package.json"
      (Double.with_manifest Double.manifest_build) = (w1, inr text) ∧
    Double.json_loads text = inr (JDict d) ∧
    d !! "scripts" = Some (JDict scripts) ∧
    is_Some (scripts !! "build").
Proof.
  refine (script_run_implies_declared Double.json_loads (Double.script_action "build")
            (Double.with_manifest Double.manifest_build) ["run"; "build"] "artifacts" _).
  apply (bool_decide_unpack _). vm_compute. exact I.
Defined.
